(** * PharmCAT VCF preprocessor: the orchestration in [run]

    A shallow embedding of [src/scripts/preprocessor/PharmCAT_VCF_Preprocess.py].
    The script is sequential glue around external tools, so the embedding
    is a small monad: every interaction with the operating system or with
    the [vcf_preprocess_utilities] module is an explicit step that reads or
    changes an abstract world and is recorded in a log.

    Python's [str] is rendered as [string]; a character is a code point
    below 256.  On those code points [\d] is the set 0..9. *)

From Stdlib Require Import List String Ascii Bool NArith ZArith Lia.
Import ListNotations.
Local Open Scope string_scope.

Set Implicit Arguments.

(** ** Strings as Python uses them *)

Module PyStr.

Definition is_digit (c : ascii) : bool :=
  let n := N_of_ascii c in (48 <=? n)%N && (n <=? 57)%N.

(** [str.isspace] on code points below 256. *)
Definition is_space (c : ascii) : bool :=
  let n := N_of_ascii c in
  ((9 <=? n)%N && (n <=? 13)%N) || ((28 <=? n)%N && (n <=? 32)%N)
  || (n =? 133)%N || (n =? 160)%N.

Fixpoint lstrip (s : string) : string :=
  match s with
  | String c s' => if is_space c then lstrip s' else s
  | EmptyString => EmptyString
  end.

(** [rstrip], written so that it recurses on the tail: a character is
    kept when something that is not white space follows or it is not
    white space itself. *)
Fixpoint rstrip (s : string) : string :=
  match s with
  | String c s' =>
      match rstrip s' with
      | EmptyString => if is_space c then EmptyString else String c EmptyString
      | r => String c r
      end
  | EmptyString => EmptyString
  end.

(** [line.strip()] *)
Definition strip (s : string) : string := rstrip (lstrip s).

(** [',' in s] and friends *)
Fixpoint contains_char (c : ascii) (s : string) : bool :=
  match s with
  | String d s' => Ascii.eqb c d || contains_char c s'
  | EmptyString => false
  end.

(** [s.startswith(p)], returning what follows the prefix. *)
Fixpoint strip_prefix (p s : string) : option string :=
  match p, s with
  | EmptyString, _ => Some s
  | String a p', String b s' => if Ascii.eqb a b then strip_prefix p' s' else None
  | String _ _, EmptyString => None
  end.

(** Truth value of a [str]: the empty string is false. *)
Definition truthy (s : string) : bool :=
  match s with EmptyString => false | String _ _ => true end.

(** Truth value of an optional argument ([None] or a [str]). *)
Definition truthy_opt (o : option string) : bool :=
  match o with Some s => truthy s | None => false end.

(** The [str] of an optional argument that is known not to be [None]. *)
Definition get (o : option string) : string :=
  match o with Some s => s | None => EmptyString end.

(** [x if x else d] *)
Definition or_default (o : option string) (d : string) : string :=
  match o with
  | Some s => if truthy s then s else d
  | None => d
  end.

(** Python compares strings by code point, left to right. *)
Definition lt (a b : string) : bool :=
  match String.compare a b with Lt => true | _ => false end.

End PyStr.

(** ** The regular expressions of the script *)

Module Regex.
Import PyStr.

(** The version pattern of the script is a run of digits followed by any
    number of groups made of a dot and a run of digits.  [release_tail]
    is the rest of such a match once a digit has been seen: digits are
    taken greedily, and a dot is taken only when a digit follows it. *)
Fixpoint release_tail (s : string) : string :=
  match s with
  | String c s' =>
      if is_digit c then String c (release_tail s')
      else if Ascii.eqb c "." then
        match s' with
        | String d _ => if is_digit d then String c (release_tail s') else EmptyString
        | EmptyString => EmptyString
        end
      else EmptyString
  | EmptyString => EmptyString
  end.

(** The text matched by the version group at the start of [s]. *)
Definition match_release (s : string) : option string :=
  match s with
  | String c _ => if is_digit c then Some (release_tail s) else None
  | EmptyString => None
  end.

(** [re.search] of a literal followed by the version group: the leftmost
    position where the literal and then the group match; the result is
    [group(1)]. *)
Fixpoint search_version (lit s : string) : option string :=
  let here :=
    match strip_prefix lit s with
    | Some r => match_release r
    | None => None
    end in
  match here with
  | Some v => Some v
  | None =>
      match s with
      | String _ s' => search_version lit s'
      | EmptyString => None
      end
  end.

(** [$] without [re.MULTILINE]: the end of the string, or just before a
    newline that is the last character. *)
Definition at_dollar (s : string) : bool :=
  match s with
  | EmptyString => true
  | String c EmptyString => Ascii.eqb c "010"
  | _ => false
  end.

(** [[.]vcf([.]b?gz)?$] matched at the start of [s]. *)
Definition match_vcf_suffix (s : string) : bool :=
  match strip_prefix ".vcf" s with
  | Some r =>
      match strip_prefix ".bgz" r with
      | Some r' => at_dollar r'
      | None =>
          match strip_prefix ".gz" r with
          | Some r' => at_dollar r'
          | None => false
          end
      end
      || at_dollar r
  | None => false
  end.

(** [re.search('[.]vcf([.]b?gz)?$', s)] as a truth value. *)
Fixpoint search_vcf_suffix (s : string) : bool :=
  match_vcf_suffix s
  || match s with
     | String _ s' => search_vcf_suffix s'
     | EmptyString => false
     end.

End Regex.

(** ** Version numbers

    The script compares versions with [packaging.version.parse(a) <
    version.parse(b)].  Only the strings that can reach the comparison are
    covered here: runs of digits separated by dots, which is all that the
    version group of the regular expressions can capture and what both
    minimum constants are. *)

Module Version.
Import PyStr.

(** [int(text)] for a non-empty run of digits, [None] otherwise. *)
Fixpoint digits_value (acc : N) (s : string) : option N :=
  match s with
  | String c s' =>
      if is_digit c
      then
        let acc' := (10 * acc + (N_of_ascii c - 48))%N in
        match s' with
        | EmptyString => Some acc'
        | _ => digits_value acc' s'
        end
      else None
  | EmptyString => None
  end.

(** [text.split(".")] *)
Fixpoint split_dots (s : string) : list string :=
  match s with
  | String c s' =>
      if Ascii.eqb c "." then EmptyString :: split_dots s'
      else
        match split_dots s' with
        | piece :: pieces => String c piece :: pieces
        | [] => [String c EmptyString]
        end
  | EmptyString => [EmptyString]
  end.

Fixpoint all_some {A : Type} (l : list (option A)) : option (list A) :=
  match l with
  | [] => Some []
  | Some a :: l' =>
      match all_some l' with
      | Some r => Some (a :: r)
      | None => None
      end
  | None :: _ => None
  end.

(** Modelled from the spec: the [packaging] library is not under src/.
    The spec calls its ordering semantic-version ordering, with the
    components compared numerically.  [parse] gives the release tuple of
    a dotted run of digits, [tuple(int(i) for i in text.split("."))];
    [None] stands for every other text. *)
Definition parse (s : string) : option (list N) :=
  all_some (map (digits_value 0) (split_dots s)).

(** Modelled from the spec: the comparison key of a release, the tuple
    without its trailing zeros, so that 1.16 and 1.16.0 are equal. *)
Fixpoint strip_zeros (r : list N) : list N :=
  match r with
  | x :: r' =>
      match strip_zeros r' with
      | [] => if (x =? 0)%N then [] else [x]
      | t => x :: t
      end
  | [] => []
  end.

(** Python's [<] on tuples of integers: the first position where the
    tuples differ decides, and a proper prefix is smaller. *)
Fixpoint tuple_lt (a b : list N) : bool :=
  match a, b with
  | x :: a', y :: b' =>
      if (x <? y)%N then true
      else if (y <? x)%N then false
      else tuple_lt a' b'
  | [], _ :: _ => true
  | _, [] => false
  end.

(** Modelled from the spec: [<] on two parsed versions, numeric and
    component by component. *)
Definition lt (a b : list N) : bool :=
  tuple_lt (strip_zeros a) (strip_zeros b).

End Version.

(** ** [os.path] on POSIX: the pure functions *)

Module Path.
Import PyStr.

(** [(s[:i], s[i:])] for [i = s.rfind(c)], [None] when [c] is absent. *)
Fixpoint rsplit_at (c : ascii) (s : string) : option (string * string) :=
  match s with
  | String d s' =>
      match rsplit_at c s' with
      | Some (a, b) => Some (String d a, b)
      | None => if Ascii.eqb c d then Some (EmptyString, s) else None
      end
  | EmptyString => None
  end.

(** [(p[:i], p[i:])] for [i = p.rfind('/') + 1] *)
Definition cut_last_slash (p : string) : string * string :=
  match rsplit_at "/" p with
  | Some (a, String slash t) => (a ++ String slash EmptyString, t)
  | _ => (EmptyString, p)
  end.

(** [os.path.basename] *)
Definition basename (p : string) : string := snd (cut_last_slash p).

Fixpoint all_char (c : ascii) (s : string) : bool :=
  match s with
  | String d s' => Ascii.eqb c d && all_char c s'
  | EmptyString => true
  end.

(** [s.rstrip(c)] *)
Fixpoint rstrip_char (c : ascii) (s : string) : string :=
  match s with
  | String d s' =>
      match rstrip_char c s' with
      | EmptyString => if Ascii.eqb c d then EmptyString else String d EmptyString
      | r => String d r
      end
  | EmptyString => EmptyString
  end.

(** [os.path.split]: the head loses its trailing slashes unless it
    consists of slashes only. *)
Definition split (p : string) : string * string :=
  let (head, tail) := cut_last_slash p in
  if truthy head && negb (all_char "/" head)
  then (rstrip_char "/" head, tail)
  else (head, tail).

(** [os.path.splitext]: the extension starts at the last dot of the last
    component, and leading dots of that component do not count. *)
Definition splitext (p : string) : string * string :=
  let (head, tail) := cut_last_slash p in
  match rsplit_at "." tail with
  | Some (stem, ext) =>
      if all_char "." stem then (p, EmptyString) else (head ++ stem, ext)
  | None => (p, EmptyString)
  end.

Fixpoint ends_with_char (c : ascii) (s : string) : bool :=
  match s with
  | String d EmptyString => Ascii.eqb c d
  | String _ s' => ends_with_char c s'
  | EmptyString => false
  end.

(** [os.path.join(a, b)] *)
Definition join (a b : string) : string :=
  match b with
  | String "/" _ => b
  | _ =>
      if negb (truthy a) || ends_with_char "/" a then a ++ b
      else a ++ "/" ++ b
  end.

End Path.

Arguments Path.join : simpl never.
Arguments Path.split : simpl never.
Arguments Path.basename : simpl never.

(** ** The world outside the script *)

(** What [argparse] hands to [run]: a [str], [None] or a flag per option. *)
Module args.
Record t : Type := make {
  vcf : string;
  reference_pgx_vcf : string;
  reference_genome : option string;
  sample_file : option string;
  path_to_bcftools : option string;
  path_to_bgzip : option string;
  output_dir : option string;
  base_filename : option string;
  keep_intermediate_files : bool;
  missing_to_ref : bool
}.
End args.

(** How a piece of the script ends: it falls through with a value, it
    calls [sys.exit], or an exception leaves it. *)
Inductive outcome (A : Type) : Type :=
| Normal (a : A)
| SysExit (status : Z)
| Raised (exn : string).

Arguments Normal {A} a.
Arguments SysExit {A} status.
Arguments Raised {A} exn.

(** The steps that change the world or may fail: the functions of
    [vcf_preprocess_utilities] that [run] calls, [Path.mkdir] and reading
    a text file line by line.  The index is the type of the answer.  The
    module is not under src/, so what its functions do is left to the
    [System] below; each may fall through with an answer, exit or raise.
    The answer of [execute_subprocess] is the text that [str] makes of
    what the function returns, which is what the script searches. *)
Inductive call : Type -> Type :=
| execute_subprocess (argv : list string) : call string
| bgzipped_vcf (bgzip_path input_vcf : string) : call string
| get_vcf_prefix (input_vcf : string) : call string
| get_default_grch38_ref_fasta_and_index (output_dir : string) : call string
| index_vcf (bcftools_path ref_pgx : string) : call unit
| obtain_vcf_sample_list (bcftools_path input_vcf : string) : call (list string)
| extract_regions_from_multiple_files
    (bcftools_path bgzip_path input_list ref_pgx output_dir input_basename : string)
    (sample_list : list string) : call string
| extract_regions_from_single_file
    (bcftools_path input_vcf ref_pgx output_dir input_basename : string)
    (sample_list : list string) : call string
| normalize_vcf (bcftools_path input_vcf reference_genome output_dir : string) : call string
| filter_pgx_variants
    (bcftools_path bgzip_path input_vcf reference_genome ref_pgx : string)
    (missing_to_ref : bool) (output_dir input_basename : string) : call string
| output_pharmcat_ready_vcf
    (bcftools_path input_vcf output_dir base_filename : string)
    (sample_list : list string) : call unit
| remove_vcf_and_index (path : string) : call unit
| mkdir_parents (path : string) : call unit
| open_lines (path : string) : call (list string).

(** The questions that only read the world. *)
Inductive query : Type :=
| path_exists (path : string)
| path_isfile (path : string)
| path_realpath (path : string)
| getcwd.

Inductive event : Type :=
| Printed (text : string)
| Asked (q : query)
| Performed {X : Type} (c : call X).

(** The four stages of the pipeline. *)
Definition is_stage (e : event) : bool :=
  match e with
  | Performed (extract_regions_from_multiple_files _ _ _ _ _ _ _) => true
  | Performed (extract_regions_from_single_file _ _ _ _ _ _) => true
  | Performed (normalize_vcf _ _ _ _) => true
  | Performed (filter_pgx_variants _ _ _ _ _ _ _ _) => true
  | Performed (output_pharmcat_ready_vcf _ _ _ _ _) => true
  | _ => false
  end.

Definition is_removal (e : event) : bool :=
  match e with
  | Performed (remove_vcf_and_index _) => true
  | _ => false
  end.

(** The operating system and the utility module, over a world [W].  The
    clock gives a [Time]; [format_elapsed] is the text of
    ["%.2f" % (end - start)]. *)
Record System (W Time : Type) : Type := mkSystem {
  os_path_exists : string -> W -> bool;
  os_path_isfile : string -> W -> bool;
  os_path_realpath : string -> W -> string;
  os_getcwd : W -> string;
  timer : W -> Time;
  format_elapsed : Time -> Time -> string;
  perform : forall X : Type, call X -> W -> outcome X * W
}.

(** What running a piece of the script from a world gives. *)
Record Ran (W A : Type) : Type := mkRan {
  events : list event;
  final : W;
  out : outcome A
}.

Definition M (W A : Type) : Type := W -> Ran W A.

Definition ret {W A : Type} (a : A) : M W A :=
  fun w => mkRan [] w (Normal a).

Definition bind {W A B : Type} (m : M W A) (k : A -> M W B) : M W B :=
  fun w =>
    let r := m w in
    match out r with
    | Normal a =>
        let r' := k a (final r) in
        mkRan (events r ++ events r') (final r') (out r')
    | SysExit n => mkRan (events r) (final r) (SysExit n)
    | Raised e => mkRan (events r) (final r) (Raised e)
    end.

Declare Scope run_scope.
Delimit Scope run_scope with run.
Notation "x <- m ;; k" := (bind m (fun x => k))
  (at level 61, m at next level, right associativity) : run_scope.
Notation "m ;; k" := (bind m (fun _ => k))
  (at level 61, right associativity) : run_scope.

(** [print(text)] *)
Definition print {W : Type} (text : string) : M W unit :=
  fun w => mkRan [Printed text] w (Normal tt).

(** [sys.exit(status)] *)
Definition sys_exit {W A : Type} (status : Z) : M W A :=
  fun w => mkRan [] w (SysExit status).

Definition raise {W A : Type} (exn : string) : M W A :=
  fun w => mkRan [] w (Raised exn).

(** [if c: body] *)
Definition when {W : Type} (c : bool) (body : M W unit) : M W unit :=
  if c then body else ret tt.

Definition newline : string := String "010" EmptyString.

(** The minimum versions of the script. *)
Definition MIN_BCFTOOLS_VERSION : string := "1.16".
Definition MIN_BGZIP_VERSION : string := "1.16".

(** ** The script *)

(** The local variables of [run] once the arguments are validated and
    everything is resolved (lines 28 to 143 of the script). *)
Record Locals : Type := mkLocals {
  bcftools_path : string;
  bgzip_path : string;
  input_vcf : string;
  input_list : string;
  input_basename : string;
  ref_pgx : string;
  base_filename : string;
  output_dir : string;
  reference_genome : string;
  sample_list : list string
}.

Definition comma_message : string :=
  "Please remove comma ',' from sample names, which violates bcftools sample name convention".

Section Orchestrator.

Context {W Time : Type} (sys : System W Time).
Local Open Scope run_scope.

(** A call into the utility module or the file system. *)
Definition do {X : Type} (c : call X) : M W X :=
  fun w => let (o, w') := perform sys c w in mkRan [Performed c] w' o.

Definition exists_ (path : string) : M W bool :=
  fun w => mkRan [Asked (path_exists path)] w (Normal (os_path_exists sys path w)).

Definition isfile (path : string) : M W bool :=
  fun w => mkRan [Asked (path_isfile path)] w (Normal (os_path_isfile sys path w)).

Definition realpath (path : string) : M W string :=
  fun w => mkRan [Asked (path_realpath path)] w (Normal (os_path_realpath sys path w)).

Definition cwd : M W string :=
  fun w => mkRan [Asked getcwd] w (Normal (os_getcwd sys w)).

Definition now : M W Time :=
  fun w => mkRan [] w (Normal (timer sys w)).

(** [version.parse(current) < version.parse(minimum)] *)
Definition version_below (current minimum : string) : M W bool :=
  match Version.parse current, Version.parse minimum with
  | Some c, Some m => ret (Version.lt c m)
  | _, _ => raise "InvalidVersion"
  end.

(** Lines 28 to 41, with the minimum as an argument. *)
Definition validate_bcftools (minimum : string) (a : args.t) : M W string :=
  let bcftools_path := PyStr.or_default (args.path_to_bcftools a) "bcftools" in
  bcftools_version_message <- do (execute_subprocess [bcftools_path; "-v"]) ;;
  match Regex.search_version "bcftools " bcftools_version_message with
  | Some current_bcftools_version =>
      below <- version_below current_bcftools_version minimum ;;
      when below
        (print ("Please use bcftools " ++ minimum ++ " or higher") ;;
         sys_exit 1) ;;
      ret bcftools_path
  | None =>
      print "Could not find the version information for bcftools" ;;
      print ("Please use bcftools " ++ minimum ++ " or higher") ;;
      ret bcftools_path
  end.

(** Lines 43 to 58, with the minimum as an argument. *)
Definition validate_bgzip (minimum : string) (a : args.t) : M W string :=
  let bgzip_path := PyStr.or_default (args.path_to_bgzip a) "bgzip" in
  bgzip_help_message <- do (execute_subprocess [bgzip_path; "-h"]) ;;
  match Regex.search_version "Version: " bgzip_help_message with
  | Some current_bgzip_version =>
      below <- version_below current_bgzip_version minimum ;;
      when below
        (print ("Please use bgzip " ++ minimum ++ " or higher") ;;
         sys_exit 1) ;;
      ret bgzip_path
  | None =>
      print ("Could not find the version information for bgzip" ++ newline
             ++ "It is likely you are using a bgzip <= 1.9" ++ newline
             ++ "Please use bgzip " ++ minimum ++ " or higher") ;;
      sys_exit 1
  end.

(** Lines 62 to 68: is the argument one VCF or a list of them?  The
    result is the pair [(input_vcf, input_list)]. *)
Definition classify (vcf : string) : string * string :=
  if Regex.search_vcf_suffix (Path.basename vcf)
  then (vcf, EmptyString)
  else (EmptyString, vcf).

(** Lines 60 to 82; the result is
    [(input_vcf, input_list, input_basename)]. *)
Definition validate_input (bgzip_path : string) (a : args.t)
  : M W (string * string * string) :=
  let (input_vcf, input_list) := classify (args.vcf a) in
  input_vcf <-
    (if PyStr.truthy input_vcf
     then
       found <- exists_ input_vcf ;;
       when (negb found)
         (print ("Cannot find " ++ input_vcf) ;;
          sys_exit 1) ;;
       do (bgzipped_vcf bgzip_path input_vcf)
     else ret input_vcf) ;;
  when (PyStr.truthy input_list)
    (found <- exists_ input_list ;;
     when (negb found)
       (print ("Cannot find " ++ input_list) ;;
        sys_exit 1)) ;;
  input_basename <-
    (if PyStr.truthy input_list
     then ret (Path.basename (fst (Path.splitext input_list)))
     else do (get_vcf_prefix input_vcf)) ;;
  ret (input_vcf, input_list, input_basename).

(** Lines 83 to 87. *)
Definition validate_ref_pgx (a : args.t) : M W string :=
  let ref_pgx := args.reference_pgx_vcf a in
  found <- exists_ ref_pgx ;;
  when (negb found)
    (print ("Error: VCF of the reference PGx positions was not found at: " ++ ref_pgx) ;;
     sys_exit 1) ;;
  ret ref_pgx.

(** Lines 97 to 106. *)
Definition resolve_output_dir (a : args.t) (input_vcf input_list : string)
  : M W string :=
  output_dir <-
    (if PyStr.truthy_opt (args.output_dir a)
     then
       let output_dir := PyStr.get (args.output_dir a) in
       do (mkdir_parents output_dir) ;;
       ret output_dir
     else if PyStr.truthy input_vcf
     then
       real <- realpath input_vcf ;;
       ret (fst (Path.split real))
     else
       real <- realpath input_list ;;
       ret (fst (Path.split real))) ;;
  print ("Saving output to " ++ output_dir) ;;
  ret output_dir.

(** Lines 108 to 120. *)
Definition resolve_reference_genome (a : args.t) (output_dir : string)
  : M W string :=
  if PyStr.truthy_opt (args.reference_genome a)
  then ret (PyStr.get (args.reference_genome a))
  else
    in_output_dir <- exists_ (Path.join output_dir "reference.fna.bgz") ;;
    if in_output_dir
    then
      let reference_genome := Path.join output_dir "reference.fna.bgz" in
      print ("Using default FASTA reference at " ++ reference_genome) ;;
      ret reference_genome
    else
      here <- cwd ;;
      in_cwd <- exists_ (Path.join here "reference.fna.bgz") ;;
      if in_cwd
      then
        here' <- cwd ;;
        let reference_genome := Path.join here' "reference.fna.bgz" in
        print ("Using default FASTA reference at " ++ reference_genome) ;;
        ret reference_genome
      else
        reference_genome <- do (get_default_grch38_ref_fasta_and_index output_dir) ;;
        print ("Downloaded to " ++ reference_genome) ;;
        ret reference_genome.

(** Lines 122 to 124. *)
Definition index_ref_pgx (bcftools_path ref_pgx : string) : M W unit :=
  indexed <- exists_ (ref_pgx ++ ".csi") ;;
  when (negb indexed) (do (index_vcf bcftools_path ref_pgx)).

(** Lines 137 to 142: the loop over the lines of the list file.  The
    sample list starts empty and the loop is left at the first line that
    names a file. *)
Fixpoint first_file_samples (bcftools_path : string) (lines : list string)
  : M W (list string) :=
  match lines with
  | line :: rest =>
      let line := PyStr.strip line in
      is_file <- isfile line ;;
      if is_file
      then do (obtain_vcf_sample_list bcftools_path line)
      else first_file_samples bcftools_path rest
  | [] => ret []
  end.

(** Lines 126 to 143. *)
Definition read_sample_list (a : args.t) (bcftools_path input_vcf input_list : string)
  : M W (list string) :=
  if PyStr.truthy_opt (args.sample_file a)
  then
    lines <- do (open_lines (PyStr.get (args.sample_file a))) ;;
    ret (map PyStr.strip lines)
  else if PyStr.truthy input_vcf
  then do (obtain_vcf_sample_list bcftools_path input_vcf)
  else
    lines <- do (open_lines input_list) ;;
    first_file_samples bcftools_path lines.

(** Lines 145 to 148. *)
Definition check_sample_names (sample_list : list string) : M W unit :=
  when (existsb (PyStr.contains_char ",") sample_list)
    (print comma_message ;;
     sys_exit 1).

(** Lines 150 to 178; the result is [tmp_files_to_be_removed]. *)
Definition pipeline (a : args.t) (l : Locals) : M W (list string) :=
  let tmp_files_to_be_removed : list string := [] in
  vcf_pgx_regions <-
    (if PyStr.truthy (input_list l)
     then do (extract_regions_from_multiple_files
                (bcftools_path l) (bgzip_path l) (input_list l)
                (ref_pgx l) (output_dir l) (input_basename l) (sample_list l))
     else do (extract_regions_from_single_file
                (bcftools_path l) (input_vcf l)
                (ref_pgx l) (output_dir l) (input_basename l) (sample_list l))) ;;
  let tmp_files_to_be_removed := (tmp_files_to_be_removed ++ [vcf_pgx_regions])%list in
  vcf_normalized <-
    do (normalize_vcf (bcftools_path l) vcf_pgx_regions
          (reference_genome l) (output_dir l)) ;;
  let tmp_files_to_be_removed := (tmp_files_to_be_removed ++ [vcf_normalized])%list in
  vcf_normalized_pgx_only <-
    do (filter_pgx_variants (bcftools_path l) (bgzip_path l) vcf_normalized
          (reference_genome l) (ref_pgx l) (args.missing_to_ref a)
          (output_dir l) (input_basename l)) ;;
  let tmp_files_to_be_removed := (tmp_files_to_be_removed ++ [vcf_normalized_pgx_only])%list in
  do (output_pharmcat_ready_vcf (bcftools_path l) vcf_normalized_pgx_only
        (output_dir l) (base_filename l) (sample_list l)) ;;
  ret tmp_files_to_be_removed.

(** Lines 183 and 184. *)
Fixpoint remove_each (paths : list string) : M W unit :=
  match paths with
  | single_path :: rest =>
      do (remove_vcf_and_index single_path) ;;
      remove_each rest
  | [] => ret tt
  end.

(** Lines 180 to 184. *)
Definition cleanup (keep_intermediate_files : bool)
  (tmp_files_to_be_removed : list string) : M W unit :=
  when (negb keep_intermediate_files)
    (print "Removing intermediate files:" ;;
     remove_each tmp_files_to_be_removed).

(** Lines 28 to 143: the arguments validated and everything resolved. *)
Definition resolve (min_bcftools min_bgzip : string) (a : args.t) : M W Locals :=
  bcftools_path <- validate_bcftools min_bcftools a ;;
  bgzip_path <- validate_bgzip min_bgzip a ;;
  input <- validate_input bgzip_path a ;;
  let '(input_vcf, input_list, input_basename) := input in
  ref_pgx <- validate_ref_pgx a ;;
  let base_filename := PyStr.or_default (args.base_filename a) EmptyString in
  output_dir <- resolve_output_dir a input_vcf input_list ;;
  reference_genome <- resolve_reference_genome a output_dir ;;
  index_ref_pgx bcftools_path ref_pgx ;;
  sample_list <- read_sample_list a bcftools_path input_vcf input_list ;;
  ret (mkLocals bcftools_path bgzip_path input_vcf input_list input_basename
         ref_pgx base_filename output_dir reference_genome sample_list).

(** [run(args)], with the two minimum versions as arguments. *)
Definition run_with (min_bcftools min_bgzip : string) (a : args.t) : M W unit :=
  start <- now ;;
  l <- resolve min_bcftools min_bgzip a ;;
  check_sample_names (sample_list l) ;;
  tmp_files_to_be_removed <- pipeline a l ;;
  cleanup (args.keep_intermediate_files a) tmp_files_to_be_removed ;;
  end_ <- now ;;
  print EmptyString ;;
  print "Done." ;;
  print ("Preprocessed input VCF in " ++ format_elapsed sys start end_ ++ " seconds").

(** [run(args)] *)
Definition run (a : args.t) : M W unit :=
  run_with MIN_BCFTOOLS_VERSION MIN_BGZIP_VERSION a.

End Orchestrator.

(** The exit status of the process that ran the script. *)
Definition exit_status {A : Type} (o : outcome A) : Z :=
  match o with
  | Normal _ => 0
  | SysExit status => status
  | Raised _ => 1
  end.

(** ** A small concrete world

    A file system given by the paths that exist, the lines of the text
    files and the samples of the variant files, with tools that print a
    fixed banner.  The theorems below hold for every [System]; this one
    lets them be run. *)

Module Demo.

Record world : Type := mkWorld {
  bcftools_banner : string;
  bgzip_banner : string;
  present : list string;
  texts : list (string * list string);
  samples : list (string * list string);
  here : string
}.

Fixpoint lookup {A : Type} (key : string) (table : list (string * A)) : option A :=
  match table with
  | (k, v) :: rest => if String.eqb key k then Some v else lookup key rest
  | [] => None
  end.

Definition mem (path : string) (w : world) : bool :=
  existsb (String.eqb path) (present w).

Definition add (paths : list string) (w : world) : world :=
  mkWorld (bcftools_banner w) (bgzip_banner w) (paths ++ present w)
    (texts w) (samples w) (here w).

Definition delete (paths : list string) (w : world) : world :=
  mkWorld (bcftools_banner w) (bgzip_banner w)
    (filter (fun p => negb (existsb (String.eqb p) paths)) (present w))
    (texts w) (samples w) (here w).

(** Modelled from the spec: the utility module is not under src/.  Each
    stage gives a new compressed file with its index in the output
    directory, the per-sample stage writes one file per sample, and
    [remove_vcf_and_index] deletes a file and its companion index. *)
Definition perform (X : Type) (c : call X) (w : world) : outcome X * world :=
  match c in call X return outcome X * world with
  | execute_subprocess argv =>
      match argv with
      | [_; "-v"] => (Normal (bcftools_banner w), w)
      | [_; "-h"] => (Normal (bgzip_banner w), w)
      | _ => (SysExit 1, w)
      end
  | bgzipped_vcf _ input_vcf => (Normal input_vcf, w)
  | get_vcf_prefix input_vcf =>
      (Normal (Path.basename (fst (Path.splitext (fst (Path.splitext input_vcf))))), w)
  | get_default_grch38_ref_fasta_and_index output_dir =>
      let path := Path.join output_dir "reference.fna.bgz" in
      (Normal path, add [path] w)
  | index_vcf _ ref_pgx => (Normal tt, add [ref_pgx ++ ".csi"] w)
  | obtain_vcf_sample_list _ input_vcf =>
      match lookup input_vcf (samples w) with
      | Some names => (Normal names, w)
      | None => (SysExit 1, w)
      end
  | extract_regions_from_multiple_files _ _ _ _ output_dir input_basename _ =>
      let path := Path.join output_dir (input_basename ++ ".pgx_regions.vcf.bgz") in
      (Normal path, add [path; path ++ ".csi"] w)
  | extract_regions_from_single_file _ _ _ output_dir input_basename _ =>
      let path := Path.join output_dir (input_basename ++ ".pgx_regions.vcf.bgz") in
      (Normal path, add [path; path ++ ".csi"] w)
  | normalize_vcf _ input_vcf _ output_dir =>
      let path := Path.join output_dir
                    (Path.basename (fst (Path.splitext (fst (Path.splitext input_vcf))))
                     ++ ".normalized.vcf.bgz") in
      (Normal path, add [path; path ++ ".csi"] w)
  | filter_pgx_variants _ _ _ _ _ _ output_dir input_basename =>
      let path := Path.join output_dir (input_basename ++ ".multiallelic.vcf.bgz") in
      (Normal path, add [path; path ++ ".csi"] w)
  | output_pharmcat_ready_vcf _ _ output_dir base_filename sample_list =>
      (Normal tt,
       add (map (fun name => Path.join output_dir (base_filename ++ name ++ ".vcf")) sample_list) w)
  | remove_vcf_and_index path => (Normal tt, delete [path; path ++ ".csi"] w)
  | mkdir_parents path => (Normal tt, add [path] w)
  | open_lines path =>
      match lookup path (texts w) with
      | Some lines => (Normal lines, w)
      | None => (Raised "FileNotFoundError", w)
      end
  end.

Definition system : System world N :=
  mkSystem mem mem (fun path _ => path) here (fun _ => 0%N)
    (fun _ _ => "0.00") perform.

(** One compressed VCF with two samples. *)
Definition single : world :=
  mkWorld ("bcftools 1.17" ++ newline ++ "Using htslib 1.17")
    ("Version: 1.17" ++ newline ++ "Usage: bgzip [OPTIONS] [FILE] ...")
    ["/data/in.vcf.bgz"; "/data/pharmcat_positions.vcf.bgz"; "/data/reference.fna.bgz"]
    [("/data/samples.txt", ["S1" ++ newline; newline; " S2 " ++ newline])]
    [("/data/in.vcf.bgz", ["S1"; "S2"])]
    "/work".

(** A list of three VCFs of which the first is absent. *)
Definition batch : world :=
  mkWorld ("bcftools 1.16") ("Version: 1.16.0")
    ["/data/list.txt"; "/data/b.vcf.bgz"; "/data/c.vcf.bgz";
     "/data/pharmcat_positions.vcf.bgz"; "/work/reference.fna.bgz"]
    [("/data/list.txt",
      ["/data/a.vcf.bgz" ++ newline; "/data/b.vcf.bgz" ++ newline; "/data/c.vcf.bgz" ++ newline])]
    [("/data/b.vcf.bgz", ["S1"; "S,2"]); ("/data/c.vcf.bgz", ["S3"])]
    "/work".

(** An old bcftools, and a bgzip too old to print its version. *)
Definition old : world :=
  mkWorld ("bcftools 1.9" ++ newline ++ "Using htslib 1.9")
    "Usage: bgzip [OPTIONS] [FILE] ..."
    ["/data/in.vcf.bgz"; "/data/pharmcat_positions.vcf.bgz"] [] [] "/work".

(** A bcftools whose answer carries no version. *)
Definition mute : world :=
  mkWorld "Program: bcftools (Tools for variant calling and manipulating VCFs and BCFs)"
    "Version: 1.9"
    ["/data/in.vcf.bgz"; "/data/pharmcat_positions.vcf.bgz"] [] [] "/work".

Definition arguments (vcf : string) : args.t :=
  args.make vcf "/data/pharmcat_positions.vcf.bgz" None None None None None None false false.

(** The same run with the sample file [-S /data/samples.txt]. *)
Definition sampled : args.t :=
  args.make "/data/in.vcf.bgz" "/data/pharmcat_positions.vcf.bgz" None
    (Some "/data/samples.txt") None None None None false false.

(** The same run with the reference [-refFna /ref/hg38.fna.bgz]. *)
Definition referenced : args.t :=
  args.make "/data/in.vcf.bgz" "/data/pharmcat_positions.vcf.bgz"
    (Some "/ref/hg38.fna.bgz") None None None None None false false.

(** The same run with [-k], which keeps the intermediate files. *)
Definition keeping : args.t :=
  args.make "/data/in.vcf.bgz" "/data/pharmcat_positions.vcf.bgz" None
    None None None None None true false.

(** A world with no reference sequence anywhere. *)
Definition bare : world :=
  mkWorld "bcftools 1.20" "Version: 1.20"
    ["/data/in.vcf.bgz"; "/data/pharmcat_positions.vcf.bgz"] []
    [("/data/in.vcf.bgz", ["S1"])] "/work".

End Demo.

(** ** Vocabulary of the statements *)

(** The two external tools whose versions [run] checks. *)
Inductive tool : Type := bcftools | bgzip.

Definition tool_name (t : tool) : string :=
  match t with bcftools => "bcftools" | bgzip => "bgzip" end.

(** The executable that is run for a tool. *)
Definition tool_path (t : tool) (a : args.t) : string :=
  match t with
  | bcftools => PyStr.or_default (args.path_to_bcftools a) "bcftools"
  | bgzip => PyStr.or_default (args.path_to_bgzip a) "bgzip"
  end.

(** The command that asks a tool for its version. *)
Definition version_request (t : tool) (a : args.t) : call string :=
  match t with
  | bcftools => execute_subprocess [tool_path bcftools a; "-v"]
  | bgzip => execute_subprocess [tool_path bgzip a; "-h"]
  end.

(** The text that precedes the version in the answer of a tool. *)
Definition banner_literal (t : tool) : string :=
  match t with bcftools => "bcftools " | bgzip => "Version: " end.

Definition too_old_message (t : tool) (minimum : string) : string :=
  "Please use " ++ tool_name t ++ " " ++ minimum ++ " or higher".

Definition bgzip_unknown_message (minimum : string) : string :=
  "Could not find the version information for bgzip" ++ newline
  ++ "It is likely you are using a bgzip <= 1.9" ++ newline
  ++ "Please use bgzip " ++ minimum ++ " or higher".

(** The first stage of the pipeline, on a list of files or on one file. *)
Definition region_subset (l : Locals) : call string :=
  if PyStr.truthy (input_list l)
  then extract_regions_from_multiple_files
         (bcftools_path l) (bgzip_path l) (input_list l)
         (ref_pgx l) (output_dir l) (input_basename l) (sample_list l)
  else extract_regions_from_single_file
         (bcftools_path l) (input_vcf l)
         (ref_pgx l) (output_dir l) (input_basename l) (sample_list l).

(** The removal of a file and of its index. *)
Definition removal (path : string) : event :=
  Performed (remove_vcf_and_index path).

Section Vocabulary.

Context {W Time : Type} (sys : System W Time).

(** The check of one tool in the Environment Validator. *)
Definition validate (t : tool) (minimum : string) (a : args.t) : M W string :=
  match t with
  | bcftools => validate_bcftools sys minimum a
  | bgzip => validate_bgzip sys minimum a
  end.

(** The minimum version that [run] asks of a tool. *)
Definition minimum_version (t : tool) : string :=
  match t with
  | bcftools => MIN_BCFTOOLS_VERSION
  | bgzip => MIN_BGZIP_VERSION
  end.

(** In world [w] the tool answers [message], leaving world [w']. *)
Definition answers (t : tool) (a : args.t) (w : W) (message : string) (w' : W) : Prop :=
  perform sys (version_request t a) w = (Normal message, w').

(** The version that [run] reads in the answer of a tool, if any. *)
Definition reported (t : tool) (message : string) : option string :=
  Regex.search_version (banner_literal t) message.

(** The check is passed without a word: [run] goes on with the path of
    the tool. *)
Definition accepted (t : tool) (a : args.t) (w' : W) (r : Ran W string) : Prop :=
  r = mkRan [Performed (version_request t a)] w' (Normal (tool_path t a)).

(** The check ends the run with status 1 after asking for a newer tool. *)
Definition rejected (t : tool) (minimum : string) (a : args.t) (w' : W)
  (r : Ran W string) : Prop :=
  r = mkRan [Performed (version_request t a); Printed (too_old_message t minimum)]
        w' (SysExit 1).

(** The four stages ran one after the other from world [w0], each on
    what the stage before it produced: the region subset gave [regions],
    the normalization gave [normalized], the position filter gave
    [filtered], and the per-sample files were written, leaving [w4]. *)
Definition stages_ran (a : args.t) (l : Locals) (w0 : W)
  (regions normalized filtered : string) (w4 : W) : Prop :=
  exists w1 w2 w3,
    perform sys (region_subset l) w0 = (Normal regions, w1)
    /\ perform sys (normalize_vcf (bcftools_path l) regions
                      (reference_genome l) (output_dir l)) w1
       = (Normal normalized, w2)
    /\ perform sys (filter_pgx_variants (bcftools_path l) (bgzip_path l) normalized
                      (reference_genome l) (ref_pgx l) (args.missing_to_ref a)
                      (output_dir l) (input_basename l)) w2
       = (Normal filtered, w3)
    /\ perform sys (output_pharmcat_ready_vcf (bcftools_path l) filtered
                      (output_dir l) (base_filename l) (sample_list l)) w3
       = (Normal tt, w4).

(** No event of the given kind happens in [m], whatever the world. *)
Definition never (kind : event -> bool) {A : Type} (m : M W A) : Prop :=
  forall w, existsb kind (events (m w)) = false.

End Vocabulary.

(** The first two components of a release, absent ones counting as 0. *)
Definition major (release : list N) : N := nth 0 release 0%N.
Definition minor (release : list N) : N := nth 1 release 0%N.

(** [s] ends with [suffix]. *)
Fixpoint ends_with (suffix s : string) : bool :=
  String.eqb suffix s
  || match s with
     | String _ s' => ends_with suffix s'
     | EmptyString => false
     end.

Definition has_vcf_suffix (name : string) : bool :=
  ends_with ".vcf" name || ends_with ".vcf.gz" name || ends_with ".vcf.bgz" name.

(** The texts of the version pattern: runs of digits separated by single
    dots. *)
Inductive release : string -> Prop :=
| release_digit (c : ascii) :
    PyStr.is_digit c = true -> release (String c EmptyString)
| release_more (c : ascii) (s : string) :
    PyStr.is_digit c = true -> release s -> release (String c s)
| release_dot (c : ascii) (s : string) :
    PyStr.is_digit c = true -> release s -> release (String c (String "." s)).

(** A non-empty run of digits. *)
Fixpoint digit_run (s : string) : bool :=
  match s with
  | String c EmptyString => PyStr.is_digit c
  | String c s' => PyStr.is_digit c && digit_run s'
  | EmptyString => false
  end.

(** [name] is a name with a recognized suffix followed by one newline. *)
Definition has_vcf_suffix_and_newline (name : string) : bool :=
  ends_with (".vcf" ++ newline) name
  || ends_with (".vcf.gz" ++ newline) name
  || ends_with (".vcf.bgz" ++ newline) name.

Fixpoint all_space (s : string) : bool :=
  match s with
  | String c s' => PyStr.is_space c && all_space s'
  | EmptyString => true
  end.

(** The text after a version does not continue it: it is empty, or it
    starts with something that is neither a digit nor a dot followed by a
    digit. *)
Definition ends_release (rest : string) : bool :=
  match rest with
  | EmptyString => true
  | String c rest' =>
      negb (PyStr.is_digit c)
      && negb (Ascii.eqb c "."
               && match rest' with
                  | String d _ => PyStr.is_digit d
                  | EmptyString => false
                  end)
  end.

(** The first character of the text that precedes the version. *)
Definition literal_initial (t : tool) : ascii :=
  match t with bcftools => "b"%char | bgzip => "V"%char end.

(** The first, and the last, character of a text is white space. *)
Definition head_space (s : string) : bool :=
  match s with
  | String c _ => PyStr.is_space c
  | EmptyString => false
  end.

Fixpoint last_space (s : string) : bool :=
  match s with
  | String c EmptyString => PyStr.is_space c
  | String _ s' => last_space s'
  | EmptyString => false
  end.

(** Every call falls through with an answer. *)
Definition falls_through {W Time : Type} (sys : System W Time) : Prop :=
  forall (X : Type) (c : call X) (w : W),
    exists x w', perform sys c w = (Normal x, w').

(** A piece of the script fell through or called [sys.exit(1)]. *)
Definition ends_well {A : Type} (o : outcome A) : Prop :=
  match o with
  | Normal _ => True
  | SysExit status => status = 1%Z
  | Raised _ => False
  end.

(** A piece of the script ends well from every world. *)
Definition always_well {W A : Type} (m : M W A) : Prop :=
  forall w, ends_well (out (m w)).

(** A world in which nothing goes wrong: every path exists, both tools
    are recent and every call falls through. *)
Module Calm.

Definition perform (X : Type) (c : call X) (w : unit) : outcome X * unit :=
  match c in call X return outcome X * unit with
  | execute_subprocess _ =>
      (Normal ("bcftools 1.17" ++ newline ++ "Version: 1.17"), w)
  | bgzipped_vcf _ input_vcf => (Normal input_vcf, w)
  | get_vcf_prefix _ => (Normal "in", w)
  | get_default_grch38_ref_fasta_and_index output_dir =>
      (Normal (Path.join output_dir "reference.fna.bgz"), w)
  | index_vcf _ _ => (Normal tt, w)
  | obtain_vcf_sample_list _ _ => (Normal ["S1"], w)
  | extract_regions_from_multiple_files _ _ _ _ _ _ _ =>
      (Normal "regions.vcf.bgz", w)
  | extract_regions_from_single_file _ _ _ _ _ _ =>
      (Normal "regions.vcf.bgz", w)
  | normalize_vcf _ _ _ _ => (Normal "normalized.vcf.bgz", w)
  | filter_pgx_variants _ _ _ _ _ _ _ _ => (Normal "filtered.vcf.bgz", w)
  | output_pharmcat_ready_vcf _ _ _ _ _ => (Normal tt, w)
  | remove_vcf_and_index _ => (Normal tt, w)
  | mkdir_parents _ => (Normal tt, w)
  | open_lines _ => (Normal [], w)
  end.

Definition system : System unit N :=
  mkSystem (fun _ _ => true) (fun _ _ => true) (fun path _ => path)
    (fun _ => "/work") (fun _ => 0%N) (fun _ _ => "0.00") perform.

End Calm.

(** ** Properties *)

(** *** Versions *)

Lemma tuple_lt_irrefl (a : list N) : Version.tuple_lt a a = false.
Proof.
  induction a as [|x a IH]; simpl; [reflexivity|].
  now rewrite N.ltb_irrefl.
Qed.

Lemma tuple_lt_asym (a : list N) :
  forall b, Version.tuple_lt a b = true -> Version.tuple_lt b a = false.
Proof.
  induction a as [|x a IH]; intros [|y b]; simpl; try easy.
  destruct (x <? y)%N eqn:Hxy, (y <? x)%N eqn:Hyx; try easy.
  - apply N.ltb_lt in Hxy, Hyx. lia.
  - intros H. now apply IH.
Qed.

Lemma version_lt_irrefl (r : list N) : Version.lt r r = false.
Proof. apply tuple_lt_irrefl. Qed.

Lemma version_lt_asym (r1 r2 : list N) :
  Version.lt r1 r2 = true -> Version.lt r2 r1 = false.
Proof. apply tuple_lt_asym. Qed.

(** Dropping trailing zeros does not change a component. *)
Lemma nth_strip_zeros (r : list N) :
  forall i, nth i (Version.strip_zeros r) 0%N = nth i r 0%N.
Proof.
  induction r as [|x r IH]; intros i; simpl; [reflexivity|].
  destruct (Version.strip_zeros r) as [|y t] eqn:Hs.
  - destruct (x =? 0)%N eqn:Hx.
    + apply N.eqb_eq in Hx. subst x.
      destruct i as [|i]; simpl; [reflexivity|].
      rewrite <- IH. now destruct i.
    + destruct i as [|i]; simpl; [reflexivity|].
      rewrite <- IH. now destruct i.
  - destruct i as [|i]; simpl; [reflexivity|].
    now rewrite <- IH.
Qed.

(** Against 1.16 the order looks at the first two components only, as
    numbers. *)
Lemma tuple_lt_1_16 (s : list N) :
  Version.tuple_lt s [1; 16]%N = true
  <-> (major s < 1)%N \/ (major s = 1%N /\ (minor s < 16)%N).
Proof.
  unfold major, minor.
  destruct s as [|x [|y s]]; simpl.
  - split; [intros _; left; lia | reflexivity].
  - destruct (x <? 1)%N eqn:H1; [apply N.ltb_lt in H1; split; [left; lia|reflexivity]|].
    apply N.ltb_ge in H1.
    destruct (1 <? x)%N eqn:H2.
    + apply N.ltb_lt in H2. split; [discriminate | lia].
    + apply N.ltb_ge in H2. split; [intros _; right; lia | reflexivity].
  - destruct (x <? 1)%N eqn:H1; [apply N.ltb_lt in H1; split; [left; lia|reflexivity]|].
    apply N.ltb_ge in H1.
    destruct (1 <? x)%N eqn:H2.
    + apply N.ltb_lt in H2. split; [discriminate | lia].
    + apply N.ltb_ge in H2.
      destruct (y <? 16)%N eqn:H3;
        [apply N.ltb_lt in H3; split; [right; lia|reflexivity]|].
      apply N.ltb_ge in H3.
      destruct (16 <? y)%N eqn:H4.
      * split; [discriminate | lia].
      * destruct s; simpl; (split; [discriminate | lia]).
Qed.

Lemma version_lt_1_16 (r : list N) :
  Version.lt r [1; 16]%N = true
  <-> (major r < 1)%N \/ (major r = 1%N /\ (minor r < 16)%N).
Proof.
  unfold Version.lt.
  change (Version.strip_zeros [1; 16]%N) with [1; 16]%N.
  rewrite tuple_lt_1_16. unfold major, minor.
  now rewrite !nth_strip_zeros.
Qed.

(** *** What the version pattern captures can be parsed *)

Lemma digit_is_not_dot (c : ascii) : PyStr.is_digit c = true -> Ascii.eqb c "." = false.
Proof.
  intros Hc. destruct (Ascii.eqb_spec c ".") as [->|]; [discriminate Hc | reflexivity].
Qed.

Lemma release_tail_cases (s : string) :
  Regex.release_tail s = EmptyString
  \/ release (Regex.release_tail s)
  \/ exists r, Regex.release_tail s = String "." r /\ release r.
Proof.
  induction s as [|c s IH]; [now left|].
  cbn [Regex.release_tail].
  destruct (PyStr.is_digit c) eqn:Hc.
  - right; left.
    destruct IH as [-> | [Hrel | (r & -> & Hrel)]].
    + now apply release_digit.
    + now apply release_more.
    + now apply release_dot.
  - destruct (Ascii.eqb_spec c ".") as [->|]; [|now left].
    destruct s as [|d s]; [now left|].
    destruct (PyStr.is_digit d) eqn:Hd; [|now left].
    right; right. exists (Regex.release_tail (String d s)). split; [reflexivity|].
    revert IH. cbn [Regex.release_tail]. rewrite Hd.
    intros [Hnil | [Hrel | (r & Heq & _)]].
    + discriminate Hnil.
    + exact Hrel.
    + injection Heq as -> _. discriminate Hd.
Qed.

Lemma match_release_release (s v : string) :
  Regex.match_release s = Some v -> release v.
Proof.
  unfold Regex.match_release.
  destruct s as [|c s]; [discriminate|].
  destruct (PyStr.is_digit c) eqn:Hc; [|discriminate].
  intros [= <-]. cbn [Regex.release_tail]. rewrite Hc.
  destruct (release_tail_cases s) as [-> | [Hrel | (r & -> & Hrel)]].
  - now apply release_digit.
  - now apply release_more.
  - now apply release_dot.
Qed.

Lemma search_version_release (lit s v : string) :
  Regex.search_version lit s = Some v -> release v.
Proof.
  induction s as [|c s IH]; cbn [Regex.search_version].
  - destruct (PyStr.strip_prefix lit EmptyString) as [r|]; [|discriminate].
    destruct (Regex.match_release r) as [v'|] eqn:Hm; [|discriminate].
    intros [= <-]. now apply match_release_release with r.
  - destruct (PyStr.strip_prefix lit (String c s)) as [r|].
    + destruct (Regex.match_release r) as [v'|] eqn:Hm; [|exact IH].
      intros [= <-]. now apply match_release_release with r.
    + exact IH.
Qed.

Lemma digits_value_run (s : string) :
  digit_run s = true -> forall acc, exists n, Version.digits_value acc s = Some n.
Proof.
  induction s as [|c s IH]; [discriminate|].
  cbn [digit_run Version.digits_value].
  destruct s as [|d s].
  - intros -> acc. now eexists.
  - intros H acc. apply andb_prop in H as [-> Hs]. now apply IH.
Qed.

Lemma release_split (v : string) :
  release v ->
  exists p ps, Version.split_dots v = p :: ps
               /\ digit_run p = true
               /\ Forall (fun q => digit_run q = true) ps.
Proof.
  induction 1 as [c Hc | c s Hc _ (p & ps & Hsplit & Hp & Hps)
                 | c s Hc _ (p & ps & Hsplit & Hp & Hps)].
  - exists (String c EmptyString), []. cbn.
    rewrite (digit_is_not_dot c Hc). now repeat split.
  - exists (String c p), ps.
    cbn [Version.split_dots]. rewrite (digit_is_not_dot c Hc), Hsplit.
    repeat split; [|exact Hps].
    cbn [digit_run]. rewrite Hc, Hp. now destruct p.
  - exists (String c EmptyString), (p :: ps).
    cbn [Version.split_dots]. rewrite (digit_is_not_dot c Hc).
    change (Ascii.eqb "." ".") with true. cbn iota. rewrite Hsplit.
    repeat split; [exact Hc | now constructor].
Qed.

Lemma all_some_values (pieces : list string) :
  Forall (fun q => digit_run q = true) pieces ->
  exists r, Version.all_some (map (Version.digits_value 0) pieces) = Some r.
Proof.
  induction 1 as [|q pieces Hq _ (r & Hr)]; [now exists []|].
  destruct (digits_value_run q Hq 0%N) as (n & Hn).
  exists (n :: r). cbn [map Version.all_some]. now rewrite Hn, Hr.
Qed.

(** Every version that [run] reads in the answer of a tool is a release
    that [version.parse] accepts. *)
Lemma reported_parses (t : tool) (message v : string) :
  reported t message = Some v -> exists r, Version.parse v = Some r.
Proof.
  unfold reported. intros H. apply search_version_release in H.
  apply release_split in H as (p & ps & Hsplit & Hp & Hps).
  unfold Version.parse. rewrite Hsplit.
  apply all_some_values. now constructor.
Qed.

(** *** Running pieces of the script *)

Section Steps.

Context {W Time : Type} (sys : System W Time).

Lemma do_answer (X : Type) (c : call X) (w w' : W) (o : outcome X) :
  perform sys c w = (o, w') -> do sys c w = mkRan [Performed c] w' o.
Proof. unfold do. now intros ->. Qed.

Lemma bind_Normal (A B : Type) (m : M W A) (k : A -> M W B) (w w' : W)
  (evs : list event) (x : A) :
  m w = mkRan evs w' (Normal x) ->
  bind m k w = mkRan (evs ++ events (k x w')) (final (k x w')) (out (k x w')).
Proof. unfold bind. now intros ->. Qed.

Lemma bind_SysExit (A B : Type) (m : M W A) (k : A -> M W B) (w w' : W)
  (evs : list event) (n : Z) :
  m w = mkRan evs w' (SysExit n) -> bind m k w = mkRan evs w' (SysExit n).
Proof. unfold bind. now intros ->. Qed.

Lemma bind_Raised (A B : Type) (m : M W A) (k : A -> M W B) (w w' : W)
  (evs : list event) (e : string) :
  m w = mkRan evs w' (Raised e) -> bind m k w = mkRan evs w' (Raised e).
Proof. unfold bind. now intros ->. Qed.

Lemma version_below_parsed (current minimum : string) (c m : list N) (w : W) :
  Version.parse current = Some c -> Version.parse minimum = Some m ->
  version_below current minimum w = mkRan [] w (Normal (Version.lt c m)).
Proof. unfold version_below. now intros -> ->. Qed.

(** What the check of a tool does with an answer in which a version is
    read. *)
Lemma validate_reported (t : tool) (minimum v : string) (rv rm : list N)
  (a : args.t) (w w' : W) (message : string) :
  answers sys t a w message w' -> reported t message = Some v ->
  Version.parse v = Some rv -> Version.parse minimum = Some rm ->
  validate sys t minimum a w
  = if Version.lt rv rm
    then mkRan [Performed (version_request t a); Printed (too_old_message t minimum)]
           w' (SysExit 1)
    else mkRan [Performed (version_request t a)] w' (Normal (tool_path t a)).
Proof.
  unfold answers, reported. intros Hans Hrep Hv Hm.
  destruct t; simpl in *;
    unfold validate_bcftools, validate_bgzip;
    (erewrite bind_Normal by (apply do_answer; exact Hans));
    rewrite Hrep;
    (erewrite bind_Normal by (eapply version_below_parsed; eassumption));
    destruct (Version.lt rv rm); reflexivity.
Qed.

End Steps.

Arguments validate_reported {W Time sys t minimum v rv rm a w w' message}.

(** *** The Environment Validator *)

(** C1, as amended.  For version strings v1 < v2: against the minimum v1
    a tool that reports v2 is accepted, and so is a tool that reports v1
    itself, because the script rejects only versions strictly below the
    minimum; against the minimum v2 a tool that reports v1 is rejected,
    the run ending with status 1.  This holds for both tools. *)
Theorem C1_minimum_is_inclusive
  (W Time : Type) (sys : System W Time) (t : tool) (a : args.t)
  (v1 v2 : string) (r1 r2 : list N)
  (w_lo w_lo' w_hi w_hi' : W) (m_lo m_hi : string) :
  Version.parse v1 = Some r1 -> Version.parse v2 = Some r2 ->
  Version.lt r1 r2 = true ->
  answers sys t a w_lo m_lo w_lo' -> reported t m_lo = Some v1 ->
  answers sys t a w_hi m_hi w_hi' -> reported t m_hi = Some v2 ->
  accepted t a w_hi' (validate sys t v1 a w_hi)
  /\ accepted t a w_lo' (validate sys t v1 a w_lo)
  /\ rejected t v2 a w_lo' (validate sys t v2 a w_lo).
Proof.
  intros H1 H2 Hlt Hlo Hrlo Hhi Hrhi.
  unfold accepted, rejected. repeat split.
  - erewrite validate_reported by eassumption.
    now rewrite (version_lt_asym _ _ Hlt).
  - erewrite validate_reported by eassumption.
    now rewrite version_lt_irrefl.
  - erewrite validate_reported by eassumption.
    now rewrite Hlt.
Qed.

(** C1 as the spec states it fails: 1.16 < 1.17, and against the minimum
    1.16 a bcftools that reports 1.16 is not rejected; the check is passed
    and the exit status is not 1. *)
Lemma C1_minimum_itself_passes :
  Version.parse "1.16" = Some [1; 16]%N
  /\ Version.parse "1.17" = Some [1; 17]%N
  /\ Version.lt [1; 16]%N [1; 17]%N = true
  /\ reported bcftools (Demo.bcftools_banner Demo.batch) = Some "1.16"
  /\ validate Demo.system bcftools "1.16" (Demo.arguments "/data/list.txt") Demo.batch
     = mkRan [Performed (execute_subprocess ["bcftools"; "-v"])] Demo.batch
         (Normal "bcftools")
  /\ out (validate Demo.system bcftools "1.16" (Demo.arguments "/data/list.txt") Demo.batch)
     <> SysExit 1.
Proof. repeat split; try reflexivity. discriminate. Qed.

Lemma C1_minimum_is_inclusive_witness :
  accepted bcftools (Demo.arguments "/data/in.vcf.bgz") Demo.single
    (validate Demo.system bcftools "1.16" (Demo.arguments "/data/in.vcf.bgz") Demo.single)
  /\ accepted bcftools (Demo.arguments "/data/in.vcf.bgz") Demo.batch
       (validate Demo.system bcftools "1.16" (Demo.arguments "/data/in.vcf.bgz") Demo.batch)
  /\ rejected bcftools "1.17" (Demo.arguments "/data/in.vcf.bgz") Demo.batch
       (validate Demo.system bcftools "1.17" (Demo.arguments "/data/in.vcf.bgz") Demo.batch).
Proof.
  apply (@C1_minimum_is_inclusive Demo.world N Demo.system bcftools
           (Demo.arguments "/data/in.vcf.bgz") "1.16" "1.17" [1; 16]%N [1; 17]%N
           Demo.batch Demo.batch Demo.single Demo.single
           (Demo.bcftools_banner Demo.batch) (Demo.bcftools_banner Demo.single));
    reflexivity.
Defined.

(** C2.  When no version is read in the answer of bcftools, the script
    prints two lines of warning and goes on with the path of the tool;
    when none is read in the answer of bgzip, it prints an error and ends
    the run with status 1.  Both hold for any minimum version. *)
Theorem C2_unparseable_version
  (W Time : Type) (sys : System W Time) (a : args.t) (min1 min2 : string)
  (w1 w1' w2 w2' : W) (m1 m2 : string) :
  answers sys bcftools a w1 m1 w1' -> reported bcftools m1 = None ->
  answers sys bgzip a w2 m2 w2' -> reported bgzip m2 = None ->
  validate_bcftools sys min1 a w1
  = mkRan [Performed (version_request bcftools a);
           Printed "Could not find the version information for bcftools";
           Printed (too_old_message bcftools min1)]
      w1' (Normal (tool_path bcftools a))
  /\ validate_bgzip sys min2 a w2
     = mkRan [Performed (version_request bgzip a);
              Printed (bgzip_unknown_message min2)]
         w2' (SysExit 1)
  /\ exit_status (out (validate_bgzip sys min2 a w2)) = 1%Z.
Proof.
  unfold answers, reported. simpl. intros Ha1 Hr1 Ha2 Hr2.
  assert (Hbgzip : validate_bgzip sys min2 a w2
                   = mkRan [Performed (version_request bgzip a);
                            Printed (bgzip_unknown_message min2)]
                       w2' (SysExit 1)).
  { unfold validate_bgzip.
    erewrite bind_Normal by (apply do_answer; exact Ha2).
    now rewrite Hr2. }
  repeat split.
  - unfold validate_bcftools.
    erewrite bind_Normal by (apply do_answer; exact Ha1).
    now rewrite Hr1.
  - exact Hbgzip.
  - now rewrite Hbgzip.
Qed.

Lemma C2_unparseable_version_witness :
  validate_bcftools Demo.system MIN_BCFTOOLS_VERSION (Demo.arguments "/data/in.vcf.bgz") Demo.mute
  = mkRan [Performed (execute_subprocess ["bcftools"; "-v"]);
           Printed "Could not find the version information for bcftools";
           Printed "Please use bcftools 1.16 or higher"]
      Demo.mute (Normal "bcftools")
  /\ validate_bgzip Demo.system MIN_BGZIP_VERSION (Demo.arguments "/data/in.vcf.bgz") Demo.old
     = mkRan [Performed (execute_subprocess ["bgzip"; "-h"]);
              Printed (bgzip_unknown_message "1.16")]
         Demo.old (SysExit 1)
  /\ exit_status
       (out (validate_bgzip Demo.system MIN_BGZIP_VERSION
               (Demo.arguments "/data/in.vcf.bgz") Demo.old)) = 1%Z.
Proof.
  apply (@C2_unparseable_version Demo.world N Demo.system
           (Demo.arguments "/data/in.vcf.bgz") MIN_BCFTOOLS_VERSION MIN_BGZIP_VERSION
           Demo.mute Demo.mute Demo.old Demo.old
           (Demo.bcftools_banner Demo.mute) (Demo.bgzip_banner Demo.old));
    reflexivity.
Defined.

(** C4.  Against the fixed minimum 1.16 of either tool, every version
    that is read in the answer of the tool has a release, and it is
    rejected exactly when that release is below 1.16 component by
    component, the components compared as numbers: the major number is
    below 1, or it is 1 and the minor number is below 16.  Every other
    version is accepted.  So a tool that reports 1.9 is rejected, although
    the text 1.9 is greater than the text 1.16 in the order of strings. *)
Theorem C4_numeric_components
  (W Time : Type) (sys : System W Time) (t : tool) (a : args.t)
  (w w' : W) (message v : string) :
  answers sys t a w message w' -> reported t message = Some v ->
  exists r,
    Version.parse v = Some r
    /\ (rejected t (minimum_version t) a w' (validate sys t (minimum_version t) a w)
        <-> (major r < 1)%N \/ (major r = 1%N /\ (minor r < 16)%N))
    /\ (accepted t a w' (validate sys t (minimum_version t) a w)
        <-> ~ ((major r < 1)%N \/ (major r = 1%N /\ (minor r < 16)%N)))
    /\ (v = "1.9" ->
        rejected t (minimum_version t) a w' (validate sys t (minimum_version t) a w)
        /\ PyStr.lt (minimum_version t) v = true).
Proof.
  intros Hans Hrep.
  destruct (reported_parses t message Hrep) as (r & Hparse).
  exists r. split; [exact Hparse|].
  assert (Hmin : Version.parse (minimum_version t) = Some [1; 16]%N)
    by (destruct t; reflexivity).
  pose proof (validate_reported Hans Hrep Hparse Hmin) as Hrun.
  pose proof (version_lt_1_16 r) as Hnum.
  unfold rejected, accepted. rewrite Hrun.
  destruct (Version.lt r [1; 16]%N) eqn:Hlt.
  - assert (Hbelow : (major r < 1)%N \/ (major r = 1%N /\ (minor r < 16)%N))
      by now apply Hnum.
    split; [|split].
    + split; [intros _; exact Hbelow | reflexivity].
    + split; [intros Heq; discriminate Heq | intros Hn; now destruct Hn].
    + intros ->. split; [reflexivity | now destruct t].
  - assert (Hnot : ~ ((major r < 1)%N \/ (major r = 1%N /\ (minor r < 16)%N))).
    { intros Hb. apply Hnum in Hb. discriminate Hb. }
    split; [|split].
    + split; [intros Heq; discriminate Heq | intros Hb; now destruct Hnot].
    + split; [intros _; exact Hnot | reflexivity].
    + intros ->. vm_compute in Hparse. injection Hparse as <-.
      vm_compute in Hlt. discriminate Hlt.
Qed.

Lemma C4_numeric_components_witness :
  rejected bcftools "1.16" (Demo.arguments "/data/in.vcf.bgz") Demo.old
    (validate Demo.system bcftools "1.16" (Demo.arguments "/data/in.vcf.bgz") Demo.old)
  /\ PyStr.lt "1.16" "1.9" = true.
Proof.
  destruct (@C4_numeric_components Demo.world N Demo.system bcftools
              (Demo.arguments "/data/in.vcf.bgz") Demo.old Demo.old
              (Demo.bcftools_banner Demo.old) "1.9" eq_refl eq_refl)
    as (r & _ & _ & _ & Hexample).
  exact (Hexample eq_refl).
Defined.

(** *** Events that a piece of the script cannot cause *)

Section Never.

Context {W Time : Type} (sys : System W Time).
Variable kind : event -> bool.

Lemma never_ret (A : Type) (x : A) : never kind (@ret W A x).
Proof. intros w. reflexivity. Qed.

Lemma never_sys_exit (A : Type) (n : Z) : never kind (@sys_exit W A n).
Proof. intros w. reflexivity. Qed.

Lemma never_raise (A : Type) (e : string) : never kind (@raise W A e).
Proof. intros w. reflexivity. Qed.

Lemma never_now : never kind (now sys).
Proof. intros w. reflexivity. Qed.

Lemma never_bind (A B : Type) (m : M W A) (k : A -> M W B) :
  never kind m -> (forall x, never kind (k x)) -> never kind (bind m k).
Proof.
  intros Hm Hk w. unfold bind.
  specialize (Hm w).
  destruct (out (m w)) as [x| |]; simpl; try exact Hm.
  rewrite existsb_app, Hm. apply Hk.
Qed.

Lemma never_when (c : bool) (body : M W unit) :
  never kind body -> never kind (when c body).
Proof. destruct c; simpl; [easy | intros _; apply never_ret]. Qed.

Lemma never_version_below (current minimum : string) :
  never kind (@version_below W current minimum).
Proof.
  unfold version_below.
  destruct (Version.parse current), (Version.parse minimum);
    intros w; reflexivity.
Qed.

Section Quiet.

Hypothesis printing : forall text, kind (Printed text) = false.
Hypothesis asking : forall q, kind (Asked q) = false.

Lemma never_print (text : string) : never kind (@print W text).
Proof. intros w. simpl. now rewrite printing. Qed.

Lemma never_exists (path : string) : never kind (exists_ sys path).
Proof. intros w. simpl. now rewrite asking. Qed.

Lemma never_isfile (path : string) : never kind (isfile sys path).
Proof. intros w. simpl. now rewrite asking. Qed.

Lemma never_realpath (path : string) : never kind (realpath sys path).
Proof. intros w. simpl. now rewrite asking. Qed.

Lemma never_cwd : never kind (cwd sys).
Proof. intros w. simpl. now rewrite asking. Qed.

Lemma never_do (X : Type) (c : call X) :
  kind (Performed c) = false -> never kind (do sys c).
Proof.
  intros Hc w. unfold do.
  destruct (perform sys c w) as [o w']. simpl. now rewrite Hc.
Qed.

(** The calls of the validation and resolution part of [run]. *)
Hypothesis preparing :
  (forall argv, kind (Performed (execute_subprocess argv)) = false)
  /\ (forall p q, kind (Performed (bgzipped_vcf p q)) = false)
  /\ (forall p, kind (Performed (get_vcf_prefix p)) = false)
  /\ (forall p, kind (Performed (get_default_grch38_ref_fasta_and_index p)) = false)
  /\ (forall p q, kind (Performed (index_vcf p q)) = false)
  /\ (forall p q, kind (Performed (obtain_vcf_sample_list p q)) = false)
  /\ (forall p, kind (Performed (mkdir_parents p)) = false)
  /\ (forall p, kind (Performed (open_lines p)) = false).

Ltac quiet :=
  repeat first
    [ apply never_ret | apply never_sys_exit | apply never_raise
    | apply never_print | apply never_exists | apply never_isfile
    | apply never_realpath | apply never_cwd | apply never_version_below
    | apply never_when
    | apply never_do; apply preparing
    | apply never_bind; [|intros ?]
    | match goal with
      | |- never _ (if ?c then _ else _) => destruct c
      | |- never _ (match ?x with _ => _ end) => destruct x
      end ].

Lemma never_validate_bcftools (minimum : string) (a : args.t) :
  never kind (validate_bcftools sys minimum a).
Proof. unfold validate_bcftools. quiet. Qed.

Lemma never_validate_bgzip (minimum : string) (a : args.t) :
  never kind (validate_bgzip sys minimum a).
Proof. unfold validate_bgzip. quiet. Qed.

Lemma never_validate_input (bgzip_path : string) (a : args.t) :
  never kind (validate_input sys bgzip_path a).
Proof. unfold validate_input. quiet. Qed.

Lemma never_validate_ref_pgx (a : args.t) :
  never kind (validate_ref_pgx sys a).
Proof. unfold validate_ref_pgx. quiet. Qed.

Lemma never_resolve_output_dir (a : args.t) (input_vcf input_list : string) :
  never kind (resolve_output_dir sys a input_vcf input_list).
Proof. unfold resolve_output_dir. quiet. Qed.

Lemma never_resolve_reference_genome (a : args.t) (output_dir : string) :
  never kind (resolve_reference_genome sys a output_dir).
Proof. unfold resolve_reference_genome. quiet. Qed.

Lemma never_index_ref_pgx (bcftools_path ref_pgx : string) :
  never kind (index_ref_pgx sys bcftools_path ref_pgx).
Proof. unfold index_ref_pgx. quiet. Qed.

Lemma never_first_file_samples (bcftools_path : string) (lines : list string) :
  never kind (first_file_samples sys bcftools_path lines).
Proof.
  induction lines as [|line rest IH]; simpl; [apply never_ret|].
  apply never_bind; [apply never_isfile|].
  intros [|]; [apply never_do; apply preparing | exact IH].
Qed.

Lemma never_read_sample_list (a : args.t) (bcftools_path input_vcf input_list : string) :
  never kind (read_sample_list sys a bcftools_path input_vcf input_list).
Proof.
  unfold read_sample_list.
  destruct (PyStr.truthy_opt (args.sample_file a)); [quiet|].
  destruct (PyStr.truthy input_vcf); [quiet|].
  apply never_bind; [quiet|].
  intros lines. apply never_first_file_samples.
Qed.

Lemma never_resolve (min_bcftools min_bgzip : string) (a : args.t) :
  never kind (resolve sys min_bcftools min_bgzip a).
Proof.
  unfold resolve.
  apply never_bind; [apply never_validate_bcftools|]. intros bcftools_path.
  apply never_bind; [apply never_validate_bgzip|]. intros bgzip_path.
  apply never_bind; [apply never_validate_input|]. intros [[iv il] ib].
  apply never_bind; [apply never_validate_ref_pgx|]. intros ref_pgx.
  apply never_bind; [apply never_resolve_output_dir|]. intros output_dir.
  apply never_bind; [apply never_resolve_reference_genome|]. intros reference_genome.
  apply never_bind; [apply never_index_ref_pgx|]. intros _.
  apply never_bind; [apply never_read_sample_list|]. intros sample_list.
  apply never_ret.
Qed.

Lemma never_check_sample_names (sample_list : list string) :
  never kind (@check_sample_names W sample_list).
Proof. unfold check_sample_names. quiet. Qed.

End Quiet.

End Never.

(** No pipeline stage runs while the arguments are validated and
    everything is resolved. *)
Lemma resolve_runs_no_stage (W Time : Type) (sys : System W Time)
  (min_bcftools min_bgzip : string) (a : args.t) :
  never is_stage (resolve sys min_bcftools min_bgzip a).
Proof. apply never_resolve; repeat split; easy. Qed.

(** Nothing is removed while the arguments are validated and everything
    is resolved. *)
Lemma resolve_removes_nothing (W Time : Type) (sys : System W Time)
  (min_bcftools min_bgzip : string) (a : args.t) :
  never is_removal (resolve sys min_bcftools min_bgzip a).
Proof. apply never_resolve; repeat split; easy. Qed.

(** *** The comma check *)

Section Composition.

Context {W Time : Type} (sys : System W Time).

(** A piece that falls through did so after its first half did. *)
Lemma bind_out_Normal (A B : Type) (m : M W A) (k : A -> M W B) (w : W) (y : B) :
  out (bind m k w) = Normal y ->
  exists x, out (m w) = Normal x
            /\ out (k x (final (m w))) = Normal y
            /\ events (bind m k w) = (events (m w) ++ events (k x (final (m w))))%list
            /\ final (bind m k w) = final (k x (final (m w))).
Proof.
  unfold bind. destruct (out (m w)) as [x| |]; simpl; try discriminate.
  intros H. exists x. repeat split. exact H.
Qed.

Lemma bind_of_out (A B : Type) (m : M W A) (k : A -> M W B) (w : W) (x : A) :
  out (m w) = Normal x ->
  bind m k w
  = mkRan (events (m w) ++ events (k x (final (m w))))
      (final (k x (final (m w)))) (out (k x (final (m w)))).
Proof. unfold bind. now intros ->. Qed.

Lemma filter_none (kind : event -> bool) (l : list event) :
  existsb kind l = false -> filter kind l = [].
Proof.
  induction l as [|e l IH]; simpl; [reflexivity|].
  destruct (kind e); simpl; [discriminate | exact IH].
Qed.

End Composition.

(** C3.  Whenever the resolved sample list holds an identifier with a
    comma, [run] prints the error and ends with status 1 right after the
    resolution: the log is the log of the resolution followed by the
    error line, and no pipeline stage (region subset, normalize, position
    filter, per-sample emit) is in it. *)
Theorem C3_comma_stops_the_run
  (W Time : Type) (sys : System W Time) (a : args.t) (w : W) (l : Locals) :
  out (resolve sys MIN_BCFTOOLS_VERSION MIN_BGZIP_VERSION a w) = Normal l ->
  existsb (PyStr.contains_char ",") (sample_list l) = true ->
  run sys a w
  = mkRan (events (resolve sys MIN_BCFTOOLS_VERSION MIN_BGZIP_VERSION a w)
           ++ [Printed comma_message])
      (final (resolve sys MIN_BCFTOOLS_VERSION MIN_BGZIP_VERSION a w))
      (SysExit 1)
  /\ exit_status (out (run sys a w)) = 1%Z
  /\ existsb is_stage (events (run sys a w)) = false.
Proof.
  intros Hres Hcomma.
  assert (Hrun : run sys a w
                 = mkRan (events (resolve sys MIN_BCFTOOLS_VERSION MIN_BGZIP_VERSION a w)
                          ++ [Printed comma_message])
                     (final (resolve sys MIN_BCFTOOLS_VERSION MIN_BGZIP_VERSION a w))
                     (SysExit 1)).
  { unfold run, run_with.
    rewrite (bind_of_out (now sys) _ w (x := timer sys w)) by reflexivity.
    change (final (now sys w)) with w.
    rewrite (bind_of_out _ _ _ Hres).
    unfold check_sample_names. rewrite Hcomma. reflexivity. }
  rewrite Hrun. simpl. repeat split.
  rewrite existsb_app. simpl.
  now rewrite (resolve_runs_no_stage sys MIN_BCFTOOLS_VERSION MIN_BGZIP_VERSION a w).
Qed.

Lemma C3_comma_stops_the_run_witness :
  exit_status (out (run Demo.system (Demo.arguments "/data/list.txt") Demo.batch)) = 1%Z
  /\ existsb is_stage (events (run Demo.system (Demo.arguments "/data/list.txt") Demo.batch))
     = false.
Proof.
  apply (@C3_comma_stops_the_run Demo.world N Demo.system
           (Demo.arguments "/data/list.txt") Demo.batch
           (mkLocals "bcftools" "bgzip" "" "/data/list.txt" "list"
              "/data/pharmcat_positions.vcf.bgz" "" "/data"
              "/work/reference.fna.bgz" ["S1"; "S,2"]));
    reflexivity.
Defined.

(** *** The Sample Set Resolver *)

Lemma lstrip_all_space (s : string) : all_space s = true -> PyStr.lstrip s = EmptyString.
Proof.
  induction s as [|c s IH]; simpl; [reflexivity|].
  destruct (PyStr.is_space c); simpl; [exact IH | discriminate].
Qed.

Lemma strip_all_space (s : string) : all_space s = true -> PyStr.strip s = EmptyString.
Proof. intros H. unfold PyStr.strip. now rewrite lstrip_all_space. Qed.

Section Samples.

Context {W Time : Type} (sys : System W Time).

(** The loop over the list file asks about the lines up to the first
    one that names a file, queries that file, and is done: the lines
    after it play no part. *)
Lemma first_file_samples_stops (bcftools_path : string)
  (skipped : list string) (line : string) (later : list string) (w : W) :
  Forall (fun l => os_path_isfile sys (PyStr.strip l) w = false) skipped ->
  os_path_isfile sys (PyStr.strip line) w = true ->
  first_file_samples sys bcftools_path (skipped ++ line :: later) w
  = mkRan (map (fun l => Asked (path_isfile (PyStr.strip l))) (skipped ++ [line])
           ++ [Performed (obtain_vcf_sample_list bcftools_path (PyStr.strip line))])
      (snd (perform sys (obtain_vcf_sample_list bcftools_path (PyStr.strip line)) w))
      (fst (perform sys (obtain_vcf_sample_list bcftools_path (PyStr.strip line)) w)).
Proof.
  intros Hskipped Hline.
  induction Hskipped as [|l skipped Hl _ IH]; simpl.
  - unfold bind, isfile. simpl. rewrite Hline. unfold do.
    now destruct (perform sys _ w).
  - unfold bind at 1. unfold isfile at 1. simpl. rewrite Hl, IH. reflexivity.
Qed.

(** When no line names a file the sample list stays empty. *)
Lemma first_file_samples_none (bcftools_path : string) (lines : list string) (w : W) :
  Forall (fun l => os_path_isfile sys (PyStr.strip l) w = false) lines ->
  first_file_samples sys bcftools_path lines w
  = mkRan (map (fun l => Asked (path_isfile (PyStr.strip l))) lines) w (Normal []).
Proof.
  intros Hlines.
  induction Hlines as [|l lines Hl _ IH]; simpl; [reflexivity|].
  unfold bind at 1. unfold isfile at 1. simpl. rewrite Hl, IH. reflexivity.
Qed.

Lemma read_sample_file (a : args.t) (bcftools_path input_vcf input_list : string)
  (w w' : W) (lines : list string) :
  PyStr.truthy_opt (args.sample_file a) = true ->
  perform sys (open_lines (PyStr.get (args.sample_file a))) w = (Normal lines, w') ->
  read_sample_list sys a bcftools_path input_vcf input_list w
  = mkRan [Performed (open_lines (PyStr.get (args.sample_file a)))] w'
      (Normal (map PyStr.strip lines)).
Proof.
  intros Hgiven Hopen. unfold read_sample_list. rewrite Hgiven.
  now erewrite bind_Normal by (apply do_answer; exact Hopen).
Qed.

End Samples.

(** C5.  The sample list comes from one of three sources, tried in a
    fixed order.  With a sample file, its lines in order, each stripped.
    Otherwise, with a single VCF, the samples that file reports.
    Otherwise the list file is read and its lines are tried in order: the
    first line that names an existing file supplies the samples and the
    lines after it are not looked at; the result does not depend on
    them.  When no line names a file the list stays empty. *)
Theorem C5_sample_sources
  (W Time : Type) (sys : System W Time) (a : args.t)
  (bcftools_path input_vcf input_list : string) (w : W) :
  (PyStr.truthy_opt (args.sample_file a) = true ->
   forall lines w',
     perform sys (open_lines (PyStr.get (args.sample_file a))) w = (Normal lines, w') ->
     read_sample_list sys a bcftools_path input_vcf input_list w
     = mkRan [Performed (open_lines (PyStr.get (args.sample_file a)))] w'
         (Normal (map PyStr.strip lines)))
  /\ (PyStr.truthy_opt (args.sample_file a) = false ->
      PyStr.truthy input_vcf = true ->
      read_sample_list sys a bcftools_path input_vcf input_list w
      = do sys (obtain_vcf_sample_list bcftools_path input_vcf) w)
  /\ (PyStr.truthy_opt (args.sample_file a) = false ->
      PyStr.truthy input_vcf = false ->
      forall (skipped : list string) (line : string) (later : list string) (w' : W),
        perform sys (open_lines input_list) w
        = (Normal (skipped ++ line :: later)%list, w') ->
        Forall (fun l => os_path_isfile sys (PyStr.strip l) w' = false) skipped ->
        os_path_isfile sys (PyStr.strip line) w' = true ->
        read_sample_list sys a bcftools_path input_vcf input_list w
        = mkRan (Performed (open_lines input_list)
                 :: map (fun l => Asked (path_isfile (PyStr.strip l))) (skipped ++ [line])
                 ++ [Performed (obtain_vcf_sample_list bcftools_path (PyStr.strip line))])
            (snd (perform sys (obtain_vcf_sample_list bcftools_path (PyStr.strip line)) w'))
            (fst (perform sys (obtain_vcf_sample_list bcftools_path (PyStr.strip line)) w')))
  /\ (PyStr.truthy_opt (args.sample_file a) = false ->
      PyStr.truthy input_vcf = false ->
      forall lines w',
        perform sys (open_lines input_list) w = (Normal lines, w') ->
        Forall (fun l => os_path_isfile sys (PyStr.strip l) w' = false) lines ->
        read_sample_list sys a bcftools_path input_vcf input_list w
        = mkRan (Performed (open_lines input_list)
                 :: map (fun l => Asked (path_isfile (PyStr.strip l))) lines)
            w' (Normal [])).
Proof.
  repeat split.
  - intros Hgiven lines w' Hopen. now apply read_sample_file.
  - intros Hnone Hsingle. unfold read_sample_list. now rewrite Hnone, Hsingle.
  - intros Hnone Hlist skipped line later w' Hopen Hskipped Hline.
    unfold read_sample_list. rewrite Hnone, Hlist.
    erewrite bind_Normal by (apply do_answer; exact Hopen).
    now rewrite first_file_samples_stops.
  - intros Hnone Hlist lines w' Hopen Hlines.
    unfold read_sample_list. rewrite Hnone, Hlist.
    erewrite bind_Normal by (apply do_answer; exact Hopen).
    now rewrite first_file_samples_none.
Qed.

Lemma C5_sample_sources_witness :
  read_sample_list Demo.system Demo.sampled "bcftools" "/data/in.vcf.bgz" "" Demo.single
  = mkRan [Performed (open_lines "/data/samples.txt")] Demo.single
      (Normal ["S1"; ""; "S2"])
  /\ read_sample_list Demo.system (Demo.arguments "/data/in.vcf.bgz") "bcftools"
       "/data/in.vcf.bgz" "" Demo.single
     = mkRan [Performed (obtain_vcf_sample_list "bcftools" "/data/in.vcf.bgz")]
         Demo.single (Normal ["S1"; "S2"])
  /\ read_sample_list Demo.system (Demo.arguments "/data/list.txt") "bcftools"
       "" "/data/list.txt" Demo.batch
     = mkRan [Performed (open_lines "/data/list.txt");
              Asked (path_isfile "/data/a.vcf.bgz");
              Asked (path_isfile "/data/b.vcf.bgz");
              Performed (obtain_vcf_sample_list "bcftools" "/data/b.vcf.bgz")]
         Demo.batch (Normal ["S1"; "S,2"])
  /\ read_sample_list Demo.system (Demo.arguments "/data/samples.txt") "bcftools"
       "" "/data/samples.txt" Demo.single
     = mkRan [Performed (open_lines "/data/samples.txt");
              Asked (path_isfile "S1"); Asked (path_isfile "");
              Asked (path_isfile "S2")]
         Demo.single (Normal []).
Proof.
  split; [|split; [|split]].
  - exact (proj1 (C5_sample_sources Demo.system Demo.sampled "bcftools"
                    "/data/in.vcf.bgz" "" Demo.single)
             eq_refl _ Demo.single eq_refl).
  - exact (proj1 (proj2 (C5_sample_sources Demo.system (Demo.arguments "/data/in.vcf.bgz")
                           "bcftools" "/data/in.vcf.bgz" "" Demo.single))
             eq_refl eq_refl).
  - destruct (C5_sample_sources Demo.system (Demo.arguments "/data/list.txt")
                "bcftools" "" "/data/list.txt" Demo.batch) as [_ [_ [Hfirst _]]].
    apply (Hfirst eq_refl eq_refl
             ["/data/a.vcf.bgz" ++ newline] ("/data/b.vcf.bgz" ++ newline)
             ["/data/c.vcf.bgz" ++ newline] Demo.batch);
      [reflexivity | repeat constructor | reflexivity].
  - destruct (C5_sample_sources Demo.system (Demo.arguments "/data/samples.txt")
                "bcftools" "" "/data/samples.txt" Demo.single) as [_ [_ [_ Hnone]]].
    apply (Hnone eq_refl eq_refl
             ["S1" ++ newline; newline; " S2 " ++ newline] Demo.single);
      [reflexivity | repeat constructor].
Defined.

(** C9.  With a sample file, every line gives one entry of the sample
    list, in order: the entry is the line stripped of surrounding white
    space.  A line of white space only, a blank line included, is not
    skipped; its entry is the empty string. *)
Theorem C9_blank_lines_are_samples
  (W Time : Type) (sys : System W Time) (a : args.t)
  (bcftools_path input_vcf input_list : string) (w w' : W) (lines : list string) :
  PyStr.truthy_opt (args.sample_file a) = true ->
  perform sys (open_lines (PyStr.get (args.sample_file a))) w = (Normal lines, w') ->
  out (read_sample_list sys a bcftools_path input_vcf input_list w)
  = Normal (map PyStr.strip lines)
  /\ List.length (map PyStr.strip lines) = List.length lines
  /\ forall i line,
       nth_error lines i = Some line ->
       nth_error (map PyStr.strip lines) i = Some (PyStr.strip line)
       /\ (all_space line = true ->
           nth_error (map PyStr.strip lines) i = Some EmptyString).
Proof.
  intros Hgiven Hopen.
  erewrite read_sample_file by eassumption.
  split; [reflexivity|]. split; [apply length_map|].
  intros i line Hline.
  assert (Hentry : nth_error (map PyStr.strip lines) i = Some (PyStr.strip line))
    by now rewrite nth_error_map, Hline.
  split; [exact Hentry|].
  intros Hblank. now rewrite Hentry, strip_all_space.
Qed.

Lemma C9_blank_lines_are_samples_witness :
  out (read_sample_list Demo.system Demo.sampled "bcftools" "/data/in.vcf.bgz" "" Demo.single)
  = Normal ["S1"; ""; "S2"]
  /\ nth_error ["S1"; ""; "S2"] 1 = Some "".
Proof.
  destruct (@C9_blank_lines_are_samples Demo.world N Demo.system Demo.sampled
              "bcftools" "/data/in.vcf.bgz" "" Demo.single Demo.single
              ["S1" ++ newline; newline; " S2 " ++ newline] eq_refl eq_refl)
    as [Hout [_ Hentries]].
  split; [exact Hout|].
  exact (proj2 (Hentries 1%nat newline eq_refl) eq_refl).
Defined.

(** *** The Reference Resolver *)

(** C6.  The reference sequence is resolved along one of four paths, the
    first that applies.  A path given by the caller is used as it is: no
    question is asked and nothing is performed.  Otherwise
    [reference.fna.bgz] in the output directory is used when it exists;
    otherwise the file of that name in the current directory when it
    exists; otherwise the default reference is fetched into the output
    directory. *)
Theorem C6_reference_sources
  (W Time : Type) (sys : System W Time) (a : args.t) (output_dir : string) (w : W) :
  let in_output_dir := Path.join output_dir "reference.fna.bgz" in
  let in_cwd := Path.join (os_getcwd sys w) "reference.fna.bgz" in
  (PyStr.truthy_opt (args.reference_genome a) = true ->
   resolve_reference_genome sys a output_dir w
   = mkRan [] w (Normal (PyStr.get (args.reference_genome a))))
  /\ (PyStr.truthy_opt (args.reference_genome a) = false ->
      os_path_exists sys in_output_dir w = true ->
      resolve_reference_genome sys a output_dir w
      = mkRan [Asked (path_exists in_output_dir);
               Printed ("Using default FASTA reference at " ++ in_output_dir)]
          w (Normal in_output_dir))
  /\ (PyStr.truthy_opt (args.reference_genome a) = false ->
      os_path_exists sys in_output_dir w = false ->
      os_path_exists sys in_cwd w = true ->
      resolve_reference_genome sys a output_dir w
      = mkRan [Asked (path_exists in_output_dir); Asked getcwd;
               Asked (path_exists in_cwd); Asked getcwd;
               Printed ("Using default FASTA reference at " ++ in_cwd)]
          w (Normal in_cwd))
  /\ (PyStr.truthy_opt (args.reference_genome a) = false ->
      os_path_exists sys in_output_dir w = false ->
      os_path_exists sys in_cwd w = false ->
      forall path w',
        perform sys (get_default_grch38_ref_fasta_and_index output_dir) w
        = (Normal path, w') ->
        resolve_reference_genome sys a output_dir w
        = mkRan [Asked (path_exists in_output_dir); Asked getcwd;
                 Asked (path_exists in_cwd);
                 Performed (get_default_grch38_ref_fasta_and_index output_dir);
                 Printed ("Downloaded to " ++ path)]
            w' (Normal path)).
Proof.
  intros in_output_dir in_cwd. subst in_output_dir in_cwd.
  unfold resolve_reference_genome.
  repeat split.
  - now intros ->.
  - intros -> Hout. unfold bind, exists_. simpl. now rewrite Hout.
  - intros -> Hout Hcwd. unfold bind, exists_, cwd. simpl.
    rewrite Hout. simpl. now rewrite Hcwd.
  - intros -> Hout Hcwd path w' Hget. unfold bind, exists_, cwd. simpl.
    rewrite Hout. simpl. rewrite Hcwd. simpl.
    unfold do. now rewrite Hget.
Qed.

Lemma C6_reference_sources_witness :
  resolve_reference_genome Demo.system Demo.referenced "/data" Demo.single
  = mkRan [] Demo.single (Normal "/ref/hg38.fna.bgz")
  /\ out (resolve_reference_genome Demo.system (Demo.arguments "/data/in.vcf.bgz")
            "/data" Demo.single)
     = Normal "/data/reference.fna.bgz"
  /\ out (resolve_reference_genome Demo.system (Demo.arguments "/data/list.txt")
            "/data" Demo.batch)
     = Normal "/work/reference.fna.bgz"
  /\ resolve_reference_genome Demo.system (Demo.arguments "/data/in.vcf.bgz")
       "/data" Demo.bare
     = mkRan [Asked (path_exists "/data/reference.fna.bgz"); Asked getcwd;
              Asked (path_exists "/work/reference.fna.bgz");
              Performed (get_default_grch38_ref_fasta_and_index "/data");
              Printed "Downloaded to /data/reference.fna.bgz"]
         (Demo.add ["/data/reference.fna.bgz"] Demo.bare)
         (Normal "/data/reference.fna.bgz").
Proof.
  split; [|split; [|split]].
  - apply (C6_reference_sources Demo.system Demo.referenced "/data" Demo.single).
    reflexivity.
  - destruct (C6_reference_sources Demo.system (Demo.arguments "/data/in.vcf.bgz")
                "/data" Demo.single) as [_ [Hfound _]].
    now rewrite Hfound.
  - destruct (C6_reference_sources Demo.system (Demo.arguments "/data/list.txt")
                "/data" Demo.batch) as [_ [_ [Hcwd _]]].
    now rewrite Hcwd.
  - destruct (C6_reference_sources Demo.system (Demo.arguments "/data/in.vcf.bgz")
                "/data" Demo.bare) as [_ [_ [_ Hfetch]]].
    now apply Hfetch.
Defined.

(** *** The output directory *)

(** C10.  Without an output directory, an argument that is classified as
    a list file makes [input_vcf] empty and [input_list] the argument,
    and the output directory is the directory part of the real path of
    the list file itself.  Only that real path is asked for: the list
    file is not opened, so the files it names play no part. *)
Theorem C10_list_file_output_dir
  (W Time : Type) (sys : System W Time) (a : args.t) (bgzip_path : string) (w : W) :
  PyStr.truthy_opt (args.output_dir a) = false ->
  Regex.search_vcf_suffix (Path.basename (args.vcf a)) = false ->
  classify (args.vcf a) = (EmptyString, args.vcf a)
  /\ (forall input_vcf input_list input_basename,
        out (validate_input sys bgzip_path a w)
        = Normal (input_vcf, input_list, input_basename) ->
        input_vcf = EmptyString /\ input_list = args.vcf a)
  /\ (forall w1,
        resolve_output_dir sys a EmptyString (args.vcf a) w1
        = mkRan [Asked (path_realpath (args.vcf a));
                 Printed ("Saving output to "
                          ++ fst (Path.split (os_path_realpath sys (args.vcf a) w1)))]
            w1 (Normal (fst (Path.split (os_path_realpath sys (args.vcf a) w1))))).
Proof.
  intros Hdir Hlist.
  assert (Hclass : classify (args.vcf a) = (EmptyString, args.vcf a))
    by (unfold classify; now rewrite Hlist).
  split; [exact Hclass|]. split.
  - intros iv il ib. unfold validate_input. rewrite Hclass. simpl.
    unfold bind, when, exists_, ret, print, sys_exit, do. simpl.
    destruct (PyStr.truthy (args.vcf a)); simpl.
    + destruct (os_path_exists sys (args.vcf a) w); simpl.
      * intros [= <- <- _]. now split.
      * discriminate.
    + destruct (perform sys (get_vcf_prefix EmptyString) w) as [[x| |] w2]; simpl;
        try discriminate.
      intros [= <- <- _]. now split.
  - intros w1. unfold resolve_output_dir. now rewrite Hdir.
Qed.

Lemma C10_list_file_output_dir_witness :
  classify "/data/list.txt" = ("", "/data/list.txt")
  /\ resolve_output_dir Demo.system (Demo.arguments "/data/list.txt") ""
       "/data/list.txt" Demo.batch
     = mkRan [Asked (path_realpath "/data/list.txt"); Printed "Saving output to /data"]
         Demo.batch (Normal "/data").
Proof.
  destruct (@C10_list_file_output_dir Demo.world N Demo.system
              (Demo.arguments "/data/list.txt") "bgzip" Demo.batch eq_refl eq_refl)
    as [Hclass [_ Hdir]].
  split; [exact Hclass | exact (Hdir Demo.batch)].
Defined.

(** *** The Pipeline Runner and Cleanup *)

Section Pipeline.

Context {W Time : Type} (sys : System W Time).

(** A pipeline that falls through ran its four stages in order, and
    its result lists the three intermediate files. *)
Lemma pipeline_succeeds (a : args.t) (l : Locals) (w0 : W) (tmp : list string) :
  out (pipeline sys a l w0) = Normal tmp ->
  exists regions normalized filtered,
    stages_ran sys a l w0 regions normalized filtered (final (pipeline sys a l w0))
    /\ tmp = [regions; normalized; filtered]
    /\ filter is_removal (events (pipeline sys a l w0)) = [].
Proof.
  unfold pipeline, stages_ran.
  replace (if PyStr.truthy (input_list l)
           then do sys (extract_regions_from_multiple_files
                          (bcftools_path l) (bgzip_path l) (input_list l)
                          (ref_pgx l) (output_dir l) (input_basename l) (sample_list l))
           else do sys (extract_regions_from_single_file
                          (bcftools_path l) (input_vcf l)
                          (ref_pgx l) (output_dir l) (input_basename l) (sample_list l)))
    with (do sys (region_subset l))
    by (unfold region_subset; now destruct (PyStr.truthy (input_list l))).
  unfold bind, do.
  destruct (perform sys (region_subset l) w0) as [[regions| |] w1] eqn:E1;
    simpl; try discriminate.
  destruct (perform sys (normalize_vcf _ regions _ _) w1)
    as [[normalized| |] w2] eqn:E2; simpl; try discriminate.
  destruct (perform sys (filter_pgx_variants _ _ normalized _ _ _ _ _) w2)
    as [[filtered| |] w3] eqn:E3; simpl; try discriminate.
  destruct (perform sys (output_pharmcat_ready_vcf _ filtered _ _ _) w3)
    as [[[]| |] w4] eqn:E4; simpl; try discriminate.
  intros [= <-].
  exists regions, normalized, filtered. split; [|split].
  - exists w1, w2, w3. now repeat split.
  - reflexivity.
  - unfold region_subset. now destruct (PyStr.truthy (input_list l)).
Qed.

Lemma remove_each_succeeds (paths : list string) :
  forall w, out (remove_each sys paths w) = Normal tt ->
            events (remove_each sys paths w) = map removal paths.
Proof.
  induction paths as [|p paths IH]; intros w; simpl; [reflexivity|].
  unfold bind, do.
  destruct (perform sys (remove_vcf_and_index p) w) as [[[]| |] w1];
    simpl; try discriminate.
  intros H. now rewrite IH.
Qed.

Lemma filter_removal_map (paths : list string) :
  filter is_removal (map removal paths) = map removal paths.
Proof. induction paths as [|p paths IH]; simpl; now rewrite ?IH. Qed.

(** A cleanup that falls through removed each listed file, in order,
    unless the files are kept. *)
Lemma cleanup_succeeds (keep : bool) (tmp : list string) (w : W) :
  out (cleanup sys keep tmp w) = Normal tt ->
  filter is_removal (events (cleanup sys keep tmp w))
  = if keep then [] else map removal tmp.
Proof.
  unfold cleanup. destruct keep; simpl; [reflexivity|].
  unfold bind. simpl.
  destruct (out (remove_each sys tmp w)) as [[]| |] eqn:E; simpl; try discriminate.
  intros _. rewrite (remove_each_succeeds _ _ E). apply filter_removal_map.
Qed.

End Pipeline.

(** C8.  On a run that ends normally, the four stages ran in order, each
    on the file the stage before it produced, and the files handed to
    [remove_vcf_and_index] are exactly the three intermediate ones, in
    that order: the region subset, the normalized file and the
    position-filtered file.  Nothing else is removed, so the per-sample
    files are not.  With the retention flag nothing at all is removed. *)
Theorem C8_cleanup_removes_intermediates
  (W Time : Type) (sys : System W Time) (a : args.t) (w : W) :
  out (run sys a w) = Normal tt ->
  exists l w0 regions normalized filtered w4,
    out (resolve sys MIN_BCFTOOLS_VERSION MIN_BGZIP_VERSION a w) = Normal l
    /\ final (resolve sys MIN_BCFTOOLS_VERSION MIN_BGZIP_VERSION a w) = w0
    /\ stages_ran sys a l w0 regions normalized filtered w4
    /\ filter is_removal (events (run sys a w))
       = if args.keep_intermediate_files a
         then []
         else [removal regions; removal normalized; removal filtered].
Proof.
  unfold run, run_with. intros H.
  apply bind_out_Normal in H as (start & _ & H & Hev0 & _).
  change (final (now sys w)) with w in H, Hev0.
  rewrite Hev0. clear Hev0.
  apply bind_out_Normal in H as (l & Hl & H & Hev1 & _).
  rewrite Hev1. clear Hev1.
  set (w0 := final (resolve sys MIN_BCFTOOLS_VERSION MIN_BGZIP_VERSION a w)) in *.
  apply bind_out_Normal in H as ([] & Hcheck & H & Hev2 & _).
  rewrite Hev2. clear Hev2.
  assert (Hquiet : events (check_sample_names (sample_list l) w0) = []
                   /\ final (check_sample_names (sample_list l) w0) = w0).
  { revert Hcheck. unfold check_sample_names.
    destruct (existsb (PyStr.contains_char ",") (sample_list l)); simpl;
      [discriminate | easy]. }
  destruct Hquiet as [Hev Hfin]. rewrite Hev, Hfin in *. clear Hev Hfin Hcheck.
  apply bind_out_Normal in H as (tmp & Htmp & H & Hev3 & _).
  rewrite Hev3. clear Hev3.
  apply pipeline_succeeds in Htmp as (regions & normalized & filtered & Hran & -> & Hnone).
  apply bind_out_Normal in H as ([] & Hclean & H & Hev4 & _).
  rewrite Hev4. clear Hev4.
  apply cleanup_succeeds in Hclean.
  exists l, w0, regions, normalized, filtered, (final (pipeline sys a l w0)).
  split; [exact Hl|]. split; [reflexivity|]. split; [exact Hran|].
  simpl app. rewrite !filter_app.
  rewrite (filter_none _ _ (resolve_removes_nothing sys _ _ a w)).
  rewrite Hnone, Hclean. simpl.
  rewrite app_nil_r. reflexivity.
Qed.

Lemma C8_cleanup_removes_intermediates_witness :
  (exists l w0 regions normalized filtered w4,
      out (resolve Demo.system MIN_BCFTOOLS_VERSION MIN_BGZIP_VERSION
             (Demo.arguments "/data/in.vcf.bgz") Demo.single) = Normal l
      /\ final (resolve Demo.system MIN_BCFTOOLS_VERSION MIN_BGZIP_VERSION
                  (Demo.arguments "/data/in.vcf.bgz") Demo.single) = w0
      /\ stages_ran Demo.system (Demo.arguments "/data/in.vcf.bgz") l w0
           regions normalized filtered w4
      /\ filter is_removal
           (events (run Demo.system (Demo.arguments "/data/in.vcf.bgz") Demo.single))
         = [removal regions; removal normalized; removal filtered])
  /\ filter is_removal
       (events (run Demo.system (Demo.arguments "/data/in.vcf.bgz") Demo.single))
     = [removal "/data/in.pgx_regions.vcf.bgz";
        removal "/data/in.pgx_regions.normalized.vcf.bgz";
        removal "/data/in.multiallelic.vcf.bgz"]
  /\ Demo.mem "/data/S1.vcf"
       (final (run Demo.system (Demo.arguments "/data/in.vcf.bgz") Demo.single)) = true
  /\ Demo.mem "/data/S2.vcf"
       (final (run Demo.system (Demo.arguments "/data/in.vcf.bgz") Demo.single)) = true
  /\ Demo.mem "/data/in.multiallelic.vcf.bgz"
       (final (run Demo.system (Demo.arguments "/data/in.vcf.bgz") Demo.single)) = false
  /\ Demo.mem "/data/in.multiallelic.vcf.bgz.csi"
       (final (run Demo.system (Demo.arguments "/data/in.vcf.bgz") Demo.single)) = false
  /\ Demo.mem "/data/in.multiallelic.vcf.bgz"
       (final (run Demo.system Demo.keeping Demo.single)) = true
  /\ filter is_removal (events (run Demo.system Demo.keeping Demo.single)) = [].
Proof.
  split; [|repeat split].
  exact (@C8_cleanup_removes_intermediates Demo.world N Demo.system
           (Demo.arguments "/data/in.vcf.bgz") Demo.single eq_refl).
Defined.

(** *** The Input Resolver *)

(** Where the pattern of line 65 matches at the start of a text: the
    text is one of the three suffixes, alone or followed by a newline. *)
Lemma match_vcf_suffix_texts (s : string) :
  Regex.match_vcf_suffix s
  = String.eqb ".vcf" s || String.eqb ".vcf.gz" s || String.eqb ".vcf.bgz" s
    || String.eqb (".vcf" ++ newline) s || String.eqb (".vcf.gz" ++ newline) s
    || String.eqb (".vcf.bgz" ++ newline) s.
Proof.
  unfold Regex.match_vcf_suffix, newline.
  repeat (cbn [PyStr.strip_prefix String.eqb Regex.at_dollar append orb andb];
          try reflexivity;
          match goal with
          | |- context [Ascii.eqb ?a ?c] =>
              destruct (Ascii.eqb_spec a c); [try congruence; try subst | try congruence]
          | |- context [match ?x with EmptyString => _ | String _ _ => _ end] =>
              destruct x
          end).
Qed.

(** The names that line 65 takes for a single VCF: those that end in a
    recognized suffix, and those that end in one followed by a newline. *)
Lemma search_vcf_suffix_names (name : string) :
  Regex.search_vcf_suffix name
  = has_vcf_suffix name || has_vcf_suffix_and_newline name.
Proof.
  unfold has_vcf_suffix, has_vcf_suffix_and_newline.
  induction name as [|c name IH].
  - reflexivity.
  - cbn [Regex.search_vcf_suffix ends_with].
    rewrite IH, match_vcf_suffix_texts.
    repeat match goal with
           | |- context [String.eqb ?a ?b] => destruct (String.eqb a b)
           | |- context [ends_with ?a ?b] => destruct (ends_with a b)
           end; reflexivity.
Qed.

(** A name that ends in a recognized suffix is taken for a single VCF. *)
Lemma suffix_is_single (vcf : string) :
  has_vcf_suffix (Path.basename vcf) = true -> classify vcf = (vcf, EmptyString).
Proof.
  intros H. unfold classify. now rewrite search_vcf_suffix_names, H.
Qed.

Section Input.

Context {W Time : Type} (sys : System W Time).

(** A single VCF that does not exist ends the run with status 1. *)
Lemma single_missing_is_fatal (bgzip_path : string) (a : args.t) (w : W) :
  Regex.search_vcf_suffix (Path.basename (args.vcf a)) = true ->
  os_path_exists sys (args.vcf a) w = false ->
  validate_input sys bgzip_path a w
  = mkRan [Asked (path_exists (args.vcf a)); Printed ("Cannot find " ++ args.vcf a)]
      w (SysExit 1).
Proof.
  intros Hsingle Hmissing. unfold validate_input, classify. rewrite Hsingle.
  destruct (args.vcf a) as [|c s] eqn:Hvcf; [discriminate Hsingle|].
  unfold bind, exists_, when. simpl. now rewrite Hmissing.
Qed.

(** A single VCF that exists is handed to [bgzipped_vcf], and what
    that gives becomes [input_vcf]. *)
Lemma single_is_compressed (bgzip_path : string) (a : args.t) (w : W) :
  Regex.search_vcf_suffix (Path.basename (args.vcf a)) = true ->
  os_path_exists sys (args.vcf a) w = true ->
  forall compressed w1 prefix w2,
    perform sys (bgzipped_vcf bgzip_path (args.vcf a)) w = (Normal compressed, w1) ->
    perform sys (get_vcf_prefix compressed) w1 = (Normal prefix, w2) ->
    validate_input sys bgzip_path a w
    = mkRan [Asked (path_exists (args.vcf a));
             Performed (bgzipped_vcf bgzip_path (args.vcf a));
             Performed (get_vcf_prefix compressed)]
        w2 (Normal (compressed, EmptyString, prefix)).
Proof.
  intros Hsingle Hfound compressed w1 prefix w2 Hzip Hprefix.
  unfold validate_input, classify. rewrite Hsingle.
  destruct (args.vcf a) as [|c s] eqn:Hvcf; [discriminate Hsingle|].
  unfold bind, exists_, when, do. simpl. rewrite Hfound. simpl.
  rewrite Hzip. simpl. now rewrite Hprefix.
Qed.

(** A list file that does not exist ends the run with status 1. *)
Lemma list_missing_is_fatal (bgzip_path : string) (a : args.t) (w : W) :
  Regex.search_vcf_suffix (Path.basename (args.vcf a)) = false ->
  PyStr.truthy (args.vcf a) = true ->
  os_path_exists sys (args.vcf a) w = false ->
  validate_input sys bgzip_path a w
  = mkRan [Asked (path_exists (args.vcf a)); Printed ("Cannot find " ++ args.vcf a)]
      w (SysExit 1).
Proof.
  intros Hlist Hpath Hmissing. unfold validate_input, classify. rewrite Hlist.
  unfold bind, exists_, when. simpl. rewrite Hpath. simpl. now rewrite Hmissing.
Qed.

(** A list file that exists is asked about and nothing more: it is
    not opened. *)
Lemma list_is_only_checked (bgzip_path : string) (a : args.t) (w : W) :
  Regex.search_vcf_suffix (Path.basename (args.vcf a)) = false ->
  PyStr.truthy (args.vcf a) = true ->
  os_path_exists sys (args.vcf a) w = true ->
  validate_input sys bgzip_path a w
  = mkRan [Asked (path_exists (args.vcf a))] w
      (Normal (EmptyString, args.vcf a,
               Path.basename (fst (Path.splitext (args.vcf a))))).
Proof.
  intros Hlist Hpath Hfound. unfold validate_input, classify. rewrite Hlist.
  unfold bind, exists_, when. simpl. rewrite Hpath. simpl. now rewrite Hfound.
Qed.

End Input.

(** C7 at the argument [/data/calls.vcf] followed by a newline.  The
    base name does not end in [.vcf], [.vcf.gz] or [.vcf.bgz], yet the
    script takes the argument for a single VCF: where the file exists it
    is handed to [bgzipped_vcf], and where it does not the run ends as
    for a missing VCF. *)
Theorem C7_final_newline_is_single :
  Path.basename ("/data/calls.vcf" ++ newline) = "calls.vcf" ++ newline
  /\ has_vcf_suffix (Path.basename ("/data/calls.vcf" ++ newline)) = false
  /\ classify ("/data/calls.vcf" ++ newline) = ("/data/calls.vcf" ++ newline, "")
  /\ events (validate_input Demo.system "bgzip"
               (Demo.arguments ("/data/calls.vcf" ++ newline))
               (Demo.add ["/data/calls.vcf" ++ newline] Demo.single))
     = [Asked (path_exists ("/data/calls.vcf" ++ newline));
        Performed (bgzipped_vcf "bgzip" ("/data/calls.vcf" ++ newline));
        Performed (get_vcf_prefix ("/data/calls.vcf" ++ newline))]
  /\ validate_input Demo.system "bgzip"
       (Demo.arguments ("/data/calls.vcf" ++ newline)) Demo.single
     = mkRan [Asked (path_exists ("/data/calls.vcf" ++ newline));
              Printed ("Cannot find /data/calls.vcf" ++ newline)]
         Demo.single (SysExit 1).
Proof. repeat split. Qed.

(** *** More on the version pattern *)

Lemma release_head (v : string) :
  release v -> exists d v', v = String d v' /\ PyStr.is_digit d = true.
Proof. intros [c Hc | c s Hc _ | c s Hc _]; now eexists _, _. Qed.

Lemma release_tail_ends (rest : string) :
  ends_release rest = true -> Regex.release_tail rest = EmptyString.
Proof.
  destruct rest as [|c rest]; [reflexivity|].
  cbn [ends_release Regex.release_tail].
  intros H. apply andb_prop in H as [Hc Hdot].
  apply negb_true_iff in Hc. rewrite Hc.
  destruct (Ascii.eqb c "."); [|reflexivity].
  destruct rest as [|d rest]; [reflexivity|].
  cbn in Hdot. apply negb_true_iff in Hdot. now rewrite Hdot.
Qed.

(** The version group takes a release whole when what follows does not
    continue it. *)
Lemma release_tail_release (v rest : string) :
  release v -> ends_release rest = true -> Regex.release_tail (v ++ rest) = v.
Proof.
  intros Hv Hrest.
  induction Hv as [c Hc | c s Hc Hs IH | c s Hc Hs IH];
    cbn [append Regex.release_tail]; rewrite Hc.
  - now rewrite release_tail_ends.
  - now rewrite IH.
  - destruct (@release_head s Hs) as (d & s' & -> & Hd).
    change (PyStr.is_digit ".") with false. change (Ascii.eqb "." ".") with true.
    cbn [append] in *. cbv iota. rewrite Hd.
    now rewrite IH.
Qed.

Lemma match_release_release_text (v rest : string) :
  release v -> ends_release rest = true -> Regex.match_release (v ++ rest) = Some v.
Proof.
  intros Hv Hrest. unfold Regex.match_release.
  rewrite <- (@release_tail_release v rest Hv Hrest) at 2.
  destruct (@release_head v Hv) as (d & v' & -> & Hd).
  cbn [append]. now rewrite Hd.
Qed.

Lemma strip_prefix_append (p s : string) : PyStr.strip_prefix p (p ++ s) = Some s.
Proof.
  induction p as [|c p IH]; cbn [append PyStr.strip_prefix].
  - now destruct s.
  - now rewrite Ascii.eqb_refl.
Qed.

Lemma search_version_here (lit s v : string) :
  (match PyStr.strip_prefix lit s with
   | Some r => Regex.match_release r
   | None => None
   end) = Some v ->
  Regex.search_version lit s = Some v.
Proof. intros H. destruct s; cbn [Regex.search_version]; now rewrite H. Qed.

Lemma search_version_skip (a : ascii) (lit before s : string) :
  PyStr.contains_char a before = false ->
  Regex.search_version (String a lit) (before ++ s)
  = Regex.search_version (String a lit) s.
Proof.
  induction before as [|c before IH]; [reflexivity|].
  cbn [PyStr.contains_char append]. intros H.
  apply orb_false_iff in H as [Hc Hbefore].
  cbn [Regex.search_version PyStr.strip_prefix]. rewrite Hc.
  now apply IH.
Qed.

(** X1.  A tool whose answer carries the expected literal followed by a
    release is read back exactly: whatever precedes the literal, as long
    as it does not contain the first character of the literal, and
    whatever follows the release, as long as it does not continue it. *)
Theorem banner_is_read_back (t : tool) (before v rest : string) :
  release v -> ends_release rest = true ->
  PyStr.contains_char (literal_initial t) before = false ->
  reported t (before ++ banner_literal t ++ v ++ rest) = Some v.
Proof.
  intros Hv Hrest Hbefore. unfold reported.
  assert (Hhere : Regex.search_version (banner_literal t) (banner_literal t ++ v ++ rest)
                  = Some v).
  { apply search_version_here.
    rewrite strip_prefix_append. now apply match_release_release_text. }
  destruct t; cbn [banner_literal literal_initial] in *;
    rewrite search_version_skip by exact Hbefore; exact Hhere.
Qed.

Lemma banner_is_read_back_witness :
  reported bgzip (newline ++ "Version: 1.16" ++ newline ++ "Usage: bgzip [OPTIONS] [FILE] ...")
  = Some "1.16".
Proof.
  apply (@banner_is_read_back bgzip newline "1.16"
           (newline ++ "Usage: bgzip [OPTIONS] [FILE] ...")).
  - apply release_dot; [reflexivity|].
    apply release_more; [reflexivity|].
    apply release_digit. reflexivity.
  - reflexivity.
  - reflexivity.
Defined.



(** *** How the script can end *)

Section Ends.

Context {W Time : Type} (sys : System W Time).
Hypothesis calm : falls_through sys.

Lemma well_ret (A : Type) (x : A) : always_well (@ret W A x).
Proof. intros w. exact I. Qed.

Lemma well_exit (A : Type) : always_well (@sys_exit W A 1).
Proof. intros w. reflexivity. Qed.

Lemma well_print (text : string) : always_well (@print W text).
Proof. intros w. exact I. Qed.

Lemma well_bind (A B : Type) (m : M W A) (k : A -> M W B) :
  always_well m -> (forall x, always_well (k x)) -> always_well (bind m k).
Proof.
  intros Hm Hk w. unfold bind. specialize (Hm w).
  destruct (out (m w)) as [x| |]; simpl; try exact Hm. apply Hk.
Qed.

Lemma well_when (c : bool) (body : M W unit) :
  always_well body -> always_well (when c body).
Proof. destruct c; simpl; [easy | intros _; apply well_ret]. Qed.

Lemma well_do (X : Type) (c : call X) : always_well (do sys c).
Proof.
  intros w. unfold do. destruct (calm c w) as (x & w' & ->). exact I.
Qed.

Lemma well_exists (path : string) : always_well (exists_ sys path).
Proof. intros w. exact I. Qed.

Lemma well_isfile (path : string) : always_well (isfile sys path).
Proof. intros w. exact I. Qed.

Lemma well_realpath (path : string) : always_well (realpath sys path).
Proof. intros w. exact I. Qed.

Lemma well_cwd : always_well (cwd sys).
Proof. intros w. exact I. Qed.

Lemma well_now : always_well (now sys).
Proof. intros w. exact I. Qed.

Ltac well :=
  repeat first
    [ apply well_ret | apply well_exit | apply well_print | apply well_do
    | apply well_exists | apply well_isfile | apply well_realpath
    | apply well_cwd | apply well_now | apply well_when
    | apply well_bind; [|intros ?]
    | match goal with
      | |- always_well (if ?c then _ else _) => destruct c
      end ].

Lemma well_version_check (B : Type) (t : tool) (message v minimum : string)
  (m : list N) (body : bool -> M W B) :
  reported t message = Some v -> Version.parse minimum = Some m ->
  (forall below, always_well (body below)) ->
  always_well (bind (version_below v minimum) body).
Proof.
  intros Hrep Hmin Hbody w.
  destruct (reported_parses t message Hrep) as (r & Hr).
  erewrite bind_Normal by (eapply version_below_parsed; eassumption).
  simpl. apply Hbody.
Qed.

Lemma well_validate_bcftools (a : args.t) :
  always_well (validate_bcftools sys MIN_BCFTOOLS_VERSION a).
Proof.
  unfold validate_bcftools. apply well_bind; [apply well_do|]. intros message.
  destruct (Regex.search_version "bcftools " message) as [v|] eqn:Hrep; [|well].
  apply well_version_check with bcftools message [1; 16]%N;
    [exact Hrep | reflexivity |].
  intros below. well.
Qed.

Lemma well_validate_bgzip (a : args.t) :
  always_well (validate_bgzip sys MIN_BGZIP_VERSION a).
Proof.
  unfold validate_bgzip. apply well_bind; [apply well_do|]. intros message.
  destruct (Regex.search_version "Version: " message) as [v|] eqn:Hrep; [|well].
  apply well_version_check with bgzip message [1; 16]%N;
    [exact Hrep | reflexivity |].
  intros below. well.
Qed.

Lemma well_first_file_samples (bcftools_path : string) (lines : list string) :
  always_well (first_file_samples sys bcftools_path lines).
Proof.
  induction lines as [|line rest IH]; simpl; [apply well_ret|].
  apply well_bind; [apply well_isfile|].
  intros [|]; [apply well_do | exact IH].
Qed.

Lemma well_resolve (a : args.t) :
  always_well (resolve sys MIN_BCFTOOLS_VERSION MIN_BGZIP_VERSION a).
Proof.
  unfold resolve.
  apply well_bind; [apply well_validate_bcftools|]. intros bcftools_path.
  apply well_bind; [apply well_validate_bgzip|]. intros bgzip_path.
  apply well_bind; [unfold validate_input; destruct (classify (args.vcf a)); well|].
  intros [[iv il] ib].
  apply well_bind; [unfold validate_ref_pgx; well|]. intros ref_pgx.
  apply well_bind; [unfold resolve_output_dir; well|]. intros output_dir.
  apply well_bind; [unfold resolve_reference_genome; well|]. intros reference_genome.
  apply well_bind; [unfold index_ref_pgx; well|]. intros _.
  apply well_bind; [|intros sample_list; apply well_ret].
  unfold read_sample_list.
  destruct (PyStr.truthy_opt (args.sample_file a)); [well|].
  destruct (PyStr.truthy iv); [well|].
  apply well_bind; [apply well_do|]. intros lines.
  apply well_first_file_samples.
Qed.

Lemma well_remove_each (paths : list string) : always_well (remove_each sys paths).
Proof. induction paths as [|p paths IH]; simpl; [apply well_ret | well; exact IH]. Qed.

Lemma well_run (a : args.t) : always_well (run sys a).
Proof.
  unfold run, run_with.
  apply well_bind; [apply well_now|]. intros start.
  apply well_bind; [apply well_resolve|]. intros l.
  apply well_bind; [unfold check_sample_names; well|]. intros _.
  apply well_bind; [unfold pipeline; well|]. intros tmp.
  apply well_bind; [unfold cleanup; apply well_when; well; apply well_remove_each|].
  intros _. well.
Qed.

End Ends.



(** *** The classification of the argument *)

Lemma ends_with_self (suffix : string) : ends_with suffix suffix = true.
Proof. destruct suffix; cbn [ends_with]; now rewrite String.eqb_refl. Qed.

Lemma ends_with_iff (suffix name : string) :
  ends_with suffix name = true <-> exists stem, name = stem ++ suffix.
Proof.
  split.
  - induction name as [|c name IH]; cbn [ends_with].
    + rewrite orb_false_r. intros H. apply String.eqb_eq in H. subst suffix.
      now exists EmptyString.
    + intros H. apply orb_prop in H as [H|H].
      * apply String.eqb_eq in H. subst suffix. now exists EmptyString.
      * destruct (IH H) as (stem & ->). now exists (String c stem).
  - intros (stem & ->).
    induction stem as [|c stem IH]; [apply ends_with_self|].
    cbn [append ends_with]. rewrite IH. apply orb_true_r.
Qed.

(** X4.  Line 65 takes the argument for a single VCF exactly when its
    base name ends in [.vcf], [.vcf.gz] or [.vcf.bgz], or in one of these
    followed by a newline, which is what [$] makes of the pattern; every
    other argument is taken for a list file.  Here a name ends in a
    suffix when it is some stem followed by the suffix. *)
Theorem classification_of_the_argument (vcf : string) :
  classify vcf
  = (if has_vcf_suffix (Path.basename vcf)
        || has_vcf_suffix_and_newline (Path.basename vcf)
     then (vcf, EmptyString)
     else (EmptyString, vcf))
  /\ (forall suffix name,
        ends_with suffix name = true <-> exists stem, name = stem ++ suffix).
Proof.
  split; [|exact ends_with_iff].
  unfold classify. now rewrite search_vcf_suffix_names.
Qed.

(** *** Runs that stop early *)

Section Early.

Context {W Time : Type} (sys : System W Time).

Lemma bind_of_exit (A B : Type) (m : M W A) (k : A -> M W B) (w : W) (n : Z) :
  out (m w) = SysExit n ->
  bind m k w = mkRan (events (m w)) (final (m w)) (SysExit n).
Proof. unfold bind. now intros ->. Qed.

Lemma bind_of_raise (A B : Type) (m : M W A) (k : A -> M W B) (w : W) (e : string) :
  out (m w) = Raised e ->
  bind m k w = mkRan (events (m w)) (final (m w)) (Raised e).
Proof. unfold bind. now intros ->. Qed.

(** [run] is its resolution followed by the rest. *)
Lemma run_after_resolve (a : args.t) (w : W) :
  run sys a w
  = bind (resolve sys MIN_BCFTOOLS_VERSION MIN_BGZIP_VERSION a)
      (fun l =>
         bind (check_sample_names (sample_list l))
           (fun _ =>
              bind (pipeline sys a l)
                (fun tmp =>
                   bind (cleanup sys (args.keep_intermediate_files a) tmp)
                     (fun _ =>
                        bind (now sys)
                          (fun end_ =>
                             bind (print EmptyString)
                               (fun _ =>
                                  bind (print "Done.")
                                    (fun _ =>
                                       print ("Preprocessed input VCF in "
                                              ++ format_elapsed sys (timer sys w) end_
                                              ++ " seconds")))))))) w.
Proof.
  unfold run, run_with.
  rewrite (bind_of_out (now sys) _ w (x := timer sys w)) by reflexivity.
  change (final (now sys w)) with w. change (events (now sys w)) with (@nil event).
  cbn [app]. now destruct (bind _ _ w).
Qed.

Lemma pipeline_removes_nothing (a : args.t) (l : Locals) :
  never is_removal (pipeline sys a l).
Proof.
  unfold pipeline.
  apply never_bind;
    [destruct (PyStr.truthy (input_list l)); now apply never_do|].
  intros regions. apply never_bind; [now apply never_do|].
  intros normalized. apply never_bind; [now apply never_do|].
  intros filtered. apply never_bind; [now apply never_do|].
  intros _. apply never_ret.
Qed.

End Early.

(** X5.  Whenever the validation and resolution part of [run] does not
    fall through, whether by [sys.exit] or by an exception, the run ends
    there in the same way: its log and its final world are those of the
    resolution, the exit status is the same, no pipeline stage has run and
    nothing has been removed. *)
Theorem failed_resolution_ends_the_run
  (W Time : Type) (sys : System W Time) (a : args.t) (w : W) :
  (forall l, out (resolve sys MIN_BCFTOOLS_VERSION MIN_BGZIP_VERSION a w) <> Normal l) ->
  events (run sys a w) = events (resolve sys MIN_BCFTOOLS_VERSION MIN_BGZIP_VERSION a w)
  /\ final (run sys a w) = final (resolve sys MIN_BCFTOOLS_VERSION MIN_BGZIP_VERSION a w)
  /\ exit_status (out (run sys a w))
     = exit_status (out (resolve sys MIN_BCFTOOLS_VERSION MIN_BGZIP_VERSION a w))
  /\ existsb is_stage (events (run sys a w)) = false
  /\ existsb is_removal (events (run sys a w)) = false.
Proof.
  intros Hfail. rewrite run_after_resolve.
  pose proof (resolve_runs_no_stage sys MIN_BCFTOOLS_VERSION MIN_BGZIP_VERSION a w)
    as Hstage.
  pose proof (resolve_removes_nothing sys MIN_BCFTOOLS_VERSION MIN_BGZIP_VERSION a w)
    as Hremoval.
  destruct (out (resolve sys MIN_BCFTOOLS_VERSION MIN_BGZIP_VERSION a w))
    as [l|n|e] eqn:Hout.
  - now destruct (Hfail l).
  - rewrite (bind_of_exit _ _ _ Hout). now repeat split.
  - rewrite (bind_of_raise _ _ _ Hout). now repeat split.
Qed.

Lemma failed_resolution_ends_the_run_witness :
  events (run Demo.system (Demo.arguments "/data/in.vcf.bgz") Demo.old)
  = [Performed (execute_subprocess ["bcftools"; "-v"]);
     Printed "Please use bcftools 1.16 or higher"]
  /\ exit_status (out (run Demo.system (Demo.arguments "/data/in.vcf.bgz") Demo.old)) = 1%Z.
Proof.
  destruct (@failed_resolution_ends_the_run Demo.world N Demo.system
              (Demo.arguments "/data/in.vcf.bgz") Demo.old)
    as (Hevents & _ & Hstatus & _).
  - intros l H. vm_compute in H. discriminate H.
  - split; [rewrite Hevents | rewrite Hstatus]; reflexivity.
Defined.

(** X6.  A file is removed only at the very end: whenever a removal is
    in the log of [run], the intermediate files were not to be kept, the
    resolution fell through and each of the four stages fell through in
    turn.  A run that a stage ended leaves its intermediate files in
    place. *)
Theorem removal_needs_all_stages
  (W Time : Type) (sys : System W Time) (a : args.t) (w : W) :
  existsb is_removal (events (run sys a w)) = true ->
  args.keep_intermediate_files a = false
  /\ exists l regions normalized filtered w4,
       out (resolve sys MIN_BCFTOOLS_VERSION MIN_BGZIP_VERSION a w) = Normal l
       /\ stages_ran sys a l
            (final (resolve sys MIN_BCFTOOLS_VERSION MIN_BGZIP_VERSION a w))
            regions normalized filtered w4.
Proof.
  rewrite run_after_resolve.
  pose proof (resolve_removes_nothing sys MIN_BCFTOOLS_VERSION MIN_BGZIP_VERSION a w)
    as Hresolve.
  set (w0 := final (resolve sys MIN_BCFTOOLS_VERSION MIN_BGZIP_VERSION a w)).
  destruct (out (resolve sys MIN_BCFTOOLS_VERSION MIN_BGZIP_VERSION a w))
    as [l|n|e] eqn:Hout.
  - rewrite (bind_of_out _ _ _ Hout). fold w0. cbn [events].
    rewrite existsb_app, Hresolve. cbn [orb].
    unfold check_sample_names.
    destruct (existsb (PyStr.contains_char ",") (sample_list l));
      [intros H; discriminate H|].
    rewrite (bind_of_out (when false _) _ w0 (x := tt)) by reflexivity.
    change (final (when false (bind (print comma_message) (fun _ => sys_exit 1)) w0))
      with w0.
    cbn [events when ret app].
    pose proof (pipeline_removes_nothing sys a l w0) as Hpipeline.
    destruct (out (pipeline sys a l w0)) as [tmp|n|e] eqn:Hp.
    + rewrite (bind_of_out _ _ _ Hp). cbn [events].
      rewrite existsb_app, Hpipeline. cbn [orb].
      destruct (args.keep_intermediate_files a).
      * intros H. discriminate H.
      * intros _. split; [reflexivity|].
        apply pipeline_succeeds in Hp
          as (regions & normalized & filtered & Hran & _ & _).
        now exists l, regions, normalized, filtered, (final (pipeline sys a l w0)).
    + rewrite (bind_of_exit _ _ _ Hp). cbn [events]. rewrite Hpipeline.
      intros H. discriminate H.
    + rewrite (bind_of_raise _ _ _ Hp). cbn [events]. rewrite Hpipeline.
      intros H. discriminate H.
  - rewrite (bind_of_exit _ _ _ Hout). cbn [events]. rewrite Hresolve.
    intros H. discriminate H.
  - rewrite (bind_of_raise _ _ _ Hout). cbn [events]. rewrite Hresolve.
    intros H. discriminate H.
Qed.

Lemma removal_needs_all_stages_witness :
  args.keep_intermediate_files (Demo.arguments "/data/in.vcf.bgz") = false
  /\ exists l regions normalized filtered w4,
       out (resolve Demo.system MIN_BCFTOOLS_VERSION MIN_BGZIP_VERSION
              (Demo.arguments "/data/in.vcf.bgz") Demo.single) = Normal l
       /\ stages_ran Demo.system (Demo.arguments "/data/in.vcf.bgz") l
            (final (resolve Demo.system MIN_BCFTOOLS_VERSION MIN_BGZIP_VERSION
                      (Demo.arguments "/data/in.vcf.bgz") Demo.single))
            regions normalized filtered w4.
Proof.
  exact (@removal_needs_all_stages Demo.world N Demo.system
           (Demo.arguments "/data/in.vcf.bgz") Demo.single eq_refl).
Defined.

(** *** The log of a run that succeeds *)

Section Success.

Context {W Time : Type} (sys : System W Time).

Lemma pipeline_log (a : args.t) (l : Locals) (w0 : W) (tmp : list string) :
  out (pipeline sys a l w0) = Normal tmp ->
  exists regions normalized filtered,
    tmp = [regions; normalized; filtered]
    /\ events (pipeline sys a l w0)
       = [Performed (region_subset l);
          Performed (normalize_vcf (bcftools_path l) regions
                       (reference_genome l) (output_dir l));
          Performed (filter_pgx_variants (bcftools_path l) (bgzip_path l) normalized
                       (reference_genome l) (ref_pgx l) (args.missing_to_ref a)
                       (output_dir l) (input_basename l));
          Performed (output_pharmcat_ready_vcf (bcftools_path l) filtered
                       (output_dir l) (base_filename l) (sample_list l))].
Proof.
  unfold pipeline.
  replace (if PyStr.truthy (input_list l)
           then do sys (extract_regions_from_multiple_files
                          (bcftools_path l) (bgzip_path l) (input_list l)
                          (ref_pgx l) (output_dir l) (input_basename l) (sample_list l))
           else do sys (extract_regions_from_single_file
                          (bcftools_path l) (input_vcf l)
                          (ref_pgx l) (output_dir l) (input_basename l) (sample_list l)))
    with (do sys (region_subset l))
    by (unfold region_subset; now destruct (PyStr.truthy (input_list l))).
  unfold bind, do.
  destruct (perform sys (region_subset l) w0) as [[regions| |] w1];
    simpl; try discriminate.
  destruct (perform sys (normalize_vcf _ regions _ _) w1)
    as [[normalized| |] w2]; simpl; try discriminate.
  destruct (perform sys (filter_pgx_variants _ _ normalized _ _ _ _ _) w2)
    as [[filtered| |] w3]; simpl; try discriminate.
  destruct (perform sys (output_pharmcat_ready_vcf _ filtered _ _ _) w3)
    as [[[]| |] w4]; simpl; try discriminate.
  intros [= <-]. now exists regions, normalized, filtered.
Qed.

Lemma cleanup_log (keep : bool) (tmp : list string) (w : W) :
  out (cleanup sys keep tmp w) = Normal tt ->
  events (cleanup sys keep tmp w)
  = if keep then [] else Printed "Removing intermediate files:" :: map removal tmp.
Proof.
  unfold cleanup. destruct keep; simpl; [reflexivity|].
  unfold bind. simpl.
  destruct (out (remove_each sys tmp w)) as [[]| |] eqn:E; simpl; try discriminate.
  intros _. now rewrite (@remove_each_succeeds _ _ sys tmp w E).
Qed.

End Success.



(** *** Where the local variables come from *)

Section Dataflow.

Context {W Time : Type} (sys : System W Time).

Lemma version_gate_result (A : Type) (v minimum text : string) (x y : A) (w : W) :
  out (bind (version_below v minimum)
         (fun below => bind (when below (bind (print text) (fun _ => sys_exit 1)))
                         (fun _ => ret x)) w) = Normal y ->
  y = x.
Proof.
  unfold version_below.
  destruct (Version.parse v) as [r|]; [|discriminate].
  destruct (Version.parse minimum) as [m|]; [|discriminate].
  unfold bind, when, print, sys_exit, ret. simpl.
  destruct (Version.lt r m); simpl; [discriminate | now intros [= <-]].
Qed.

Lemma validate_gives_tool_path (t : tool) (minimum : string) (a : args.t)
  (w : W) (path : string) :
  out (validate sys t minimum a w) = Normal path -> path = tool_path t a.
Proof.
  destruct t; simpl; unfold validate_bcftools, validate_bgzip; intros H;
    apply bind_out_Normal in H as (message & _ & H & _).
  - destruct (Regex.search_version "bcftools " message) as [v|].
    + now apply version_gate_result in H.
    + revert H. unfold bind, print, ret. simpl. now intros [= <-].
  - destruct (Regex.search_version "Version: " message) as [v|].
    + now apply version_gate_result in H.
    + revert H. unfold bind, print, sys_exit. simpl. discriminate.
Qed.

Lemma validate_input_result (bgzip_path : string) (a : args.t) (w : W)
  (iv il ib : string) :
  out (validate_input sys bgzip_path a w) = Normal (iv, il, ib) ->
  if Regex.search_vcf_suffix (Path.basename (args.vcf a))
  then il = EmptyString
       /\ os_path_exists sys (args.vcf a) w = true
       /\ exists w1, perform sys (bgzipped_vcf bgzip_path (args.vcf a)) w = (Normal iv, w1)
  else iv = EmptyString /\ il = args.vcf a.
Proof.
  unfold validate_input, classify.
  destruct (Regex.search_vcf_suffix (Path.basename (args.vcf a))) eqn:Hclass.
  - destruct (args.vcf a) as [|c s] eqn:Hvcf; [discriminate Hclass|].
    unfold bind, exists_, when, do, print, sys_exit, ret. simpl.
    destruct (os_path_exists sys (String c s) w); simpl; [|discriminate].
    destruct (perform sys (bgzipped_vcf bgzip_path (String c s)) w)
      as [[compressed| |] w1]; simpl; try discriminate.
    destruct (perform sys (get_vcf_prefix compressed) w1) as [[prefix| |] w2];
      simpl; try discriminate.
    intros [= <- <- _]. repeat split. now exists w1.
  - unfold bind, exists_, when, do, print, sys_exit, ret. simpl.
    destruct (PyStr.truthy (args.vcf a)); simpl.
    + destruct (os_path_exists sys (args.vcf a) w); simpl; [|discriminate].
      intros [= <- <- _]. now split.
    + destruct (perform sys (get_vcf_prefix EmptyString) w) as [[prefix| |] w2];
        simpl; try discriminate.
      intros [= <- <- _]. now split.
Qed.

Lemma validate_ref_pgx_result (a : args.t) (w : W) (path : string) :
  out (validate_ref_pgx sys a w) = Normal path ->
  path = args.reference_pgx_vcf a
  /\ os_path_exists sys (args.reference_pgx_vcf a) w = true
  /\ final (validate_ref_pgx sys a w) = w.
Proof.
  unfold validate_ref_pgx, bind, exists_, when, print, sys_exit, ret. simpl.
  destruct (os_path_exists sys (args.reference_pgx_vcf a) w); simpl;
    [|discriminate].
  intros [= <-]. now repeat split.
Qed.

End Dataflow.

(** X8.  What the pipeline is handed once the resolution fell through.
    The tools are the ones the arguments name, or [bcftools] and
    [bgzip]; the reference positions are the argument, which existed when
    it was checked; the base file name is the argument or empty.  For a
    single VCF the list is empty, the input is what [bgzipped_vcf] gave
    for the argument, which existed, and the first stage is the one for
    a single file.  For a list file the input is empty and the list is
    the argument, and the first stage is the one for several files
    unless the argument is the empty text. *)
Theorem locals_come_from_the_arguments
  (W Time : Type) (sys : System W Time) (min_bcftools min_bgzip : string)
  (a : args.t) (w : W) (l : Locals) :
  out (resolve sys min_bcftools min_bgzip a w) = Normal l ->
  bcftools_path l = tool_path bcftools a
  /\ bgzip_path l = tool_path bgzip a
  /\ ref_pgx l = args.reference_pgx_vcf a
  /\ (exists w1, os_path_exists sys (args.reference_pgx_vcf a) w1 = true)
  /\ base_filename l = PyStr.or_default (args.base_filename a) EmptyString
  /\ (Regex.search_vcf_suffix (Path.basename (args.vcf a)) = true ->
      input_list l = EmptyString
      /\ (exists w1 w2,
            os_path_exists sys (args.vcf a) w1 = true
            /\ perform sys (bgzipped_vcf (tool_path bgzip a) (args.vcf a)) w1
               = (Normal (input_vcf l), w2))
      /\ region_subset l
         = extract_regions_from_single_file (tool_path bcftools a) (input_vcf l)
             (args.reference_pgx_vcf a) (output_dir l) (input_basename l)
             (sample_list l))
  /\ (Regex.search_vcf_suffix (Path.basename (args.vcf a)) = false ->
      input_vcf l = EmptyString
      /\ input_list l = args.vcf a
      /\ region_subset l
         = if PyStr.truthy (args.vcf a)
           then extract_regions_from_multiple_files (tool_path bcftools a)
                  (tool_path bgzip a) (args.vcf a) (args.reference_pgx_vcf a)
                  (output_dir l) (input_basename l) (sample_list l)
           else extract_regions_from_single_file (tool_path bcftools a) EmptyString
                  (args.reference_pgx_vcf a) (output_dir l) (input_basename l)
                  (sample_list l)).
Proof.
  unfold resolve. intros H.
  apply bind_out_Normal in H as (bcf & Hbcf & H & _).
  apply (validate_gives_tool_path sys bcftools) in Hbcf. subst bcf.
  apply bind_out_Normal in H as (bgz & Hbgz & H & _).
  apply (validate_gives_tool_path sys bgzip) in Hbgz. subst bgz.
  apply bind_out_Normal in H as ([[iv il] ib] & Hinput & H & _).
  apply validate_input_result in Hinput.
  apply bind_out_Normal in H as (ref & Href & H & _).
  apply validate_ref_pgx_result in Href as (-> & Hexists & _).
  apply bind_out_Normal in H as (dir & _ & H & _).
  apply bind_out_Normal in H as (genome & _ & H & _).
  apply bind_out_Normal in H as ([] & _ & H & _).
  apply bind_out_Normal in H as (names & _ & H & _).
  simpl in H. injection H as <-. cbn [bcftools_path bgzip_path ref_pgx base_filename
                                       input_list input_vcf].
  split; [reflexivity|]. split; [reflexivity|]. split; [reflexivity|].
  split; [eexists; exact Hexists|]. split; [reflexivity|]. split.
  - intros Hclass. rewrite Hclass in Hinput.
    destruct Hinput as (-> & Hfound & w1 & Hzip).
    split; [reflexivity|]. split; [|reflexivity].
    eexists _, w1. split; eassumption.
  - intros Hclass. rewrite Hclass in Hinput. destruct Hinput as (-> & ->).
    split; [reflexivity|]. split; reflexivity.
Qed.

Lemma locals_come_from_the_arguments_witness :
  region_subset
    (mkLocals "bcftools" "bgzip" "" "/data/list.txt" "list"
       "/data/pharmcat_positions.vcf.bgz" "" "/data"
       "/work/reference.fna.bgz" ["S1"; "S,2"])
  = extract_regions_from_multiple_files "bcftools" "bgzip" "/data/list.txt"
      "/data/pharmcat_positions.vcf.bgz" "/data" "list" ["S1"; "S,2"].
Proof.
  destruct (@locals_come_from_the_arguments Demo.world N Demo.system
              MIN_BCFTOOLS_VERSION MIN_BGZIP_VERSION
              (Demo.arguments "/data/list.txt") Demo.batch
              (mkLocals "bcftools" "bgzip" "" "/data/list.txt" "list"
                 "/data/pharmcat_positions.vcf.bgz" "" "/data"
                 "/work/reference.fna.bgz" ["S1"; "S,2"]) eq_refl)
    as (_ & _ & _ & _ & _ & _ & Hlist).
  exact (proj2 (proj2 (Hlist eq_refl))).
Defined.

(** *** Paths *)

Lemma string_app_assoc (a b c : string) : (a ++ b) ++ c = a ++ (b ++ c).
Proof. induction a as [|d a IH]; cbn [append]; [reflexivity | now rewrite IH]. Qed.

Lemma contains_char_app (c : ascii) (a b : string) :
  PyStr.contains_char c (a ++ b)
  = PyStr.contains_char c a || PyStr.contains_char c b.
Proof.
  induction a as [|d a IH]; cbn [append PyStr.contains_char]; [reflexivity|].
  now rewrite IH, orb_assoc.
Qed.

Lemma rsplit_at_none (c : ascii) (s : string) :
  PyStr.contains_char c s = false -> Path.rsplit_at c s = None.
Proof.
  induction s as [|d s IH]; cbn [PyStr.contains_char Path.rsplit_at]; [reflexivity|].
  intros H. apply orb_false_iff in H as [Hd Hs]. now rewrite (IH Hs), Hd.
Qed.

Lemma rsplit_at_last (c : ascii) (a b : string) :
  PyStr.contains_char c b = false ->
  Path.rsplit_at c (a ++ String c b) = Some (a, String c b).
Proof.
  intros Hb. induction a as [|d a IH]; cbn [append Path.rsplit_at].
  - now rewrite (rsplit_at_none c b Hb), Ascii.eqb_refl.
  - now rewrite IH.
Qed.

Lemma ends_with_char_split (c : ascii) (s : string) :
  Path.ends_with_char c s = true -> exists s', s = s' ++ String c EmptyString.
Proof.
  induction s as [|d s IH]; [discriminate|].
  cbn [Path.ends_with_char]. destruct s as [|e s].
  - intros H. apply Ascii.eqb_eq in H. subst d. now exists EmptyString.
  - intros H. destruct (IH H) as (s' & Hs'). exists (String d s').
    cbn [append]. now rewrite <- Hs'.
Qed.

(** After a prefix that is empty or ends with a slash, a name without a
    slash is the last component. *)
Lemma cut_last_slash_prefix (prefix name : string) :
  prefix = EmptyString \/ Path.ends_with_char "/" prefix = true ->
  PyStr.contains_char "/" name = false ->
  Path.cut_last_slash (prefix ++ name) = (prefix, name).
Proof.
  intros [-> | Hprefix] Hname; unfold Path.cut_last_slash.
  - cbn [append]. now rewrite (rsplit_at_none "/" name Hname).
  - destruct (ends_with_char_split "/" prefix Hprefix) as (dir & ->).
    rewrite string_app_assoc. cbn [append].
    now rewrite (rsplit_at_last "/" dir name Hname).
Qed.

Lemma all_char_app (c : ascii) (a b : string) :
  Path.all_char c (a ++ b) = Path.all_char c a && Path.all_char c b.
Proof.
  induction a as [|d a IH]; cbn [append Path.all_char]; [reflexivity|].
  now rewrite IH, andb_assoc.
Qed.

Lemma all_char_ends (c : ascii) (s : string) :
  Path.all_char c s = true -> s = EmptyString \/ Path.ends_with_char c s = true.
Proof.
  induction s as [|d s IH]; [now left|].
  cbn [Path.all_char Path.ends_with_char]. intros H.
  apply andb_prop in H as [Hd Hs]. right.
  destruct (IH Hs) as [-> | Hends]; [exact Hd|].
  now destruct s.
Qed.

Lemma rstrip_char_keep (c : ascii) (s : string) :
  Path.ends_with_char c s = false -> Path.rstrip_char c s = s.
Proof.
  induction s as [|d s IH]; [reflexivity|].
  cbn [Path.ends_with_char Path.rstrip_char]. destruct s as [|e s].
  - cbn. now intros ->.
  - intros H. now rewrite (IH H).
Qed.

Lemma rstrip_char_last (c : ascii) (s : string) :
  Path.rstrip_char c (s ++ String c EmptyString) = Path.rstrip_char c s.
Proof.
  induction s as [|d s IH]; cbn [append Path.rstrip_char].
  - now rewrite Ascii.eqb_refl.
  - now rewrite IH.
Qed.

(** [os.path.split] of a directory, a slash and a name. *)
Lemma split_dir_name (dir name : string) :
  PyStr.truthy dir = true -> Path.ends_with_char "/" dir = false ->
  PyStr.contains_char "/" name = false ->
  Path.split (dir ++ "/" ++ name) = (dir, name).
Proof.
  intros Hdir Hends Hname. unfold Path.split.
  change (dir ++ "/" ++ name) with (dir ++ String "/" name).
  replace (dir ++ String "/" name) with ((dir ++ "/") ++ name)
    by (now rewrite string_app_assoc).
  rewrite cut_last_slash_prefix; [|right|exact Hname].
  - assert (Hall : Path.all_char "/" (dir ++ "/") = false).
    { rewrite all_char_app. destruct (Path.all_char "/" dir) eqn:Hall; [|reflexivity].
      destruct (all_char_ends "/" dir Hall) as [-> | Hslash];
        [discriminate Hdir | congruence]. }
    rewrite Hall. replace (PyStr.truthy (dir ++ "/")) with true
      by (now destruct dir).
    cbn [andb negb]. now rewrite rstrip_char_last, rstrip_char_keep.
  - clear. induction dir as [|d dir IH]; [reflexivity|].
    cbn [append Path.ends_with_char]. rewrite IH. now destruct dir.
Qed.

(** [os.path.basename(os.path.splitext(path)[0])] of a name with an
    extension. *)
Lemma basename_without_extension (prefix stem ext : string) :
  prefix = EmptyString \/ Path.ends_with_char "/" prefix = true ->
  PyStr.contains_char "/" stem = false -> Path.all_char "." stem = false ->
  PyStr.contains_char "/" ext = false -> PyStr.contains_char "." ext = false ->
  Path.basename (fst (Path.splitext (prefix ++ stem ++ "." ++ ext))) = stem.
Proof.
  intros Hprefix Hstem Hdots Hext Hdot. unfold Path.splitext.
  rewrite cut_last_slash_prefix;
    [|exact Hprefix|rewrite contains_char_app, Hstem; cbn; exact Hext].
  change (stem ++ "." ++ ext) with (stem ++ String "." ext).
  rewrite (rsplit_at_last "." stem ext Hdot), Hdots. cbn [fst].
  unfold Path.basename. now rewrite cut_last_slash_prefix.
Qed.

(** X9.  The base name of the input for a list file: when the argument
    is a stem and an extension, alone or after a directory, and it is an
    existing list file, [input_basename] is the stem.  The stem has no
    slash and is not made of dots only; the extension has neither slash
    nor dot. *)
Theorem list_file_basename
  (W Time : Type) (sys : System W Time) (bgzip_path : string) (a : args.t) (w : W)
  (prefix stem ext : string) :
  args.vcf a = prefix ++ stem ++ "." ++ ext ->
  prefix = EmptyString \/ Path.ends_with_char "/" prefix = true ->
  PyStr.contains_char "/" stem = false -> Path.all_char "." stem = false ->
  PyStr.contains_char "/" ext = false -> PyStr.contains_char "." ext = false ->
  Regex.search_vcf_suffix (Path.basename (args.vcf a)) = false ->
  os_path_exists sys (args.vcf a) w = true ->
  validate_input sys bgzip_path a w
  = mkRan [Asked (path_exists (args.vcf a))] w
      (Normal (EmptyString, args.vcf a, stem)).
Proof.
  intros Hvcf Hprefix Hstem Hdots Hext Hdot Hlist Hfound.
  rewrite (list_is_only_checked sys bgzip_path a w Hlist); [|
    rewrite Hvcf; destruct prefix, stem; reflexivity | exact Hfound].
  rewrite Hvcf at 3.
  now rewrite basename_without_extension.
Qed.

Lemma list_file_basename_witness :
  validate_input Demo.system "bgzip" (Demo.arguments "/data/list.txt") Demo.batch
  = mkRan [Asked (path_exists "/data/list.txt")] Demo.batch
      (Normal ("", "/data/list.txt", "list")).
Proof.
  apply (@list_file_basename Demo.world N Demo.system "bgzip"
           (Demo.arguments "/data/list.txt") Demo.batch "/data/" "list" "txt");
    try reflexivity.
  right. reflexivity.
Defined.

(** X10.  The default output directory: without [-o], when the real path
    of the input, the VCF or else the list file, is a directory, a slash
    and a name, the output directory is that directory, and the line that
    announces it is the only thing printed.  The directory is not empty
    and does not end with a slash; the name has no slash. *)
Theorem default_output_dir
  (W Time : Type) (sys : System W Time) (a : args.t) (input_vcf input_list : string)
  (w : W) (dir name : string) :
  PyStr.truthy_opt (args.output_dir a) = false ->
  os_path_realpath sys (if PyStr.truthy input_vcf then input_vcf else input_list) w
  = dir ++ "/" ++ name ->
  PyStr.truthy dir = true -> Path.ends_with_char "/" dir = false ->
  PyStr.contains_char "/" name = false ->
  resolve_output_dir sys a input_vcf input_list w
  = mkRan [Asked (path_realpath (if PyStr.truthy input_vcf then input_vcf else input_list));
           Printed ("Saving output to " ++ dir)]
      w (Normal dir).
Proof.
  intros Hnone Hreal Hdir Hends Hname.
  unfold resolve_output_dir. rewrite Hnone.
  destruct (PyStr.truthy input_vcf);
    unfold bind, realpath, print, ret; cbn [events final out app];
    rewrite Hreal, (split_dir_name dir name Hdir Hends Hname); reflexivity.
Qed.

Lemma default_output_dir_witness :
  resolve_output_dir Demo.system (Demo.arguments "/data/in.vcf.bgz")
    "/data/in.vcf.bgz" "" Demo.single
  = mkRan [Asked (path_realpath "/data/in.vcf.bgz"); Printed "Saving output to /data"]
      Demo.single (Normal "/data").
Proof.
  apply (@default_output_dir Demo.world N Demo.system (Demo.arguments "/data/in.vcf.bgz")
           "/data/in.vcf.bgz" "" Demo.single "/data" "in.vcf.bgz");
    reflexivity.
Defined.

(** *** Sample names *)

Lemma lstrip_head (s : string) : head_space (PyStr.lstrip s) = false.
Proof.
  induction s as [|c s IH]; [reflexivity|].
  cbn [PyStr.lstrip]. destruct (PyStr.is_space c) eqn:Hc; [exact IH|].
  exact Hc.
Qed.

Lemma rstrip_last (s : string) : last_space (PyStr.rstrip s) = false.
Proof.
  induction s as [|c s IH]; [reflexivity|].
  cbn [PyStr.rstrip]. destruct (PyStr.rstrip s) as [|d r].
  - destruct (PyStr.is_space c) eqn:Hc; [reflexivity | exact Hc].
  - exact IH.
Qed.

Lemma rstrip_head (s : string) :
  head_space s = false -> head_space (PyStr.rstrip s) = false.
Proof.
  destruct s as [|c s]; [reflexivity|].
  cbn [head_space PyStr.rstrip]. intros Hc.
  destruct (PyStr.rstrip s); [now rewrite Hc | exact Hc].
Qed.

Lemma lstrip_fixed (s : string) : head_space s = false -> PyStr.lstrip s = s.
Proof. destruct s as [|c s]; [reflexivity|]. cbn. now intros ->. Qed.

Lemma rstrip_fixed (s : string) : last_space s = false -> PyStr.rstrip s = s.
Proof.
  induction s as [|c s IH]; [reflexivity|].
  cbn [last_space PyStr.rstrip]. destruct s as [|d s].
  - cbn. now intros ->.
  - intros H. now rewrite (IH H).
Qed.

Lemma strip_is_stripped (s : string) :
  head_space (PyStr.strip s) = false
  /\ last_space (PyStr.strip s) = false
  /\ PyStr.strip (PyStr.strip s) = PyStr.strip s.
Proof.
  unfold PyStr.strip.
  pose proof (rstrip_head _ (lstrip_head s)) as Hhead.
  pose proof (rstrip_last (PyStr.lstrip s)) as Hlast.
  repeat split; [exact Hhead | exact Hlast |].
  now rewrite (lstrip_fixed _ Hhead), (rstrip_fixed _ Hlast).
Qed.

(** X11.  No sample read from a sample file has white space around it:
    every entry of the sample list neither begins nor ends with white
    space, and stripping it again changes nothing. *)
Theorem samples_of_a_file_are_stripped
  (W Time : Type) (sys : System W Time) (a : args.t)
  (bcftools_path input_vcf input_list : string) (w : W) (names : list string) :
  PyStr.truthy_opt (args.sample_file a) = true ->
  out (read_sample_list sys a bcftools_path input_vcf input_list w) = Normal names ->
  forall name,
    In name names ->
    head_space name = false /\ last_space name = false /\ PyStr.strip name = name.
Proof.
  intros Hgiven. unfold read_sample_list. rewrite Hgiven.
  unfold bind, do.
  destruct (perform sys (open_lines (PyStr.get (args.sample_file a))) w)
    as [[lines| |] w1]; simpl; try discriminate.
  intros [= <-] name Hin.
  apply in_map_iff in Hin as (line & <- & _).
  apply strip_is_stripped.
Qed.

Lemma samples_of_a_file_are_stripped_witness :
  head_space "S2" = false /\ last_space "S2" = false /\ PyStr.strip "S2" = "S2".
Proof.
  apply (@samples_of_a_file_are_stripped Demo.world N Demo.system Demo.sampled
           "bcftools" "/data/in.vcf.bgz" "" Demo.single ["S1"; ""; "S2"]);
    [reflexivity | reflexivity | right; right; left; reflexivity].
Defined.

Lemma contains_char_iff (c : ascii) (s : string) :
  PyStr.contains_char c s = true <-> exists a b, s = a ++ String c b.
Proof.
  split.
  - induction s as [|d s IH]; [discriminate|].
    cbn [PyStr.contains_char]. intros H. apply orb_prop in H as [H|H].
    + apply Ascii.eqb_eq in H. subst d. now exists EmptyString, s.
    + destruct (IH H) as (x & y & ->). now exists (String d x), y.
  - intros (x & y & ->). rewrite contains_char_app.
    cbn [PyStr.contains_char]. rewrite Ascii.eqb_refl. apply orb_true_r.
Qed.

(** X12.  The comma check, at the level of the text.  When no sample
    name can be written as a text, a comma and a text, the check is
    passed in silence, the empty list and empty names included.  When
    some name can, the error is printed and the run ends with status 1;
    the world is left as it was in both cases. *)
Theorem comma_check_is_exact (W : Type) (names : list string) (w : W) :
  ((forall name x y, In name names -> name <> x ++ "," ++ y) ->
   check_sample_names names w = mkRan [] w (Normal tt))
  /\ ((exists name x y, In name names /\ name = x ++ "," ++ y) ->
      check_sample_names names w = mkRan [Printed comma_message] w (SysExit 1)).
Proof.
  unfold check_sample_names. split.
  - intros Hnone.
    destruct (existsb (PyStr.contains_char ",") names) eqn:Hsome; [|reflexivity].
    apply existsb_exists in Hsome as (name & Hin & Hcomma).
    apply contains_char_iff in Hcomma as (x & y & ->).
    now destruct (Hnone _ x y Hin).
  - intros (name & x & y & Hin & ->).
    assert (Hsome : existsb (PyStr.contains_char ",") names = true).
    { apply existsb_exists. exists (x ++ "," ++ y). split; [exact Hin|].
      apply contains_char_iff. now exists x, y. }
    now rewrite Hsome.
Qed.

Lemma comma_check_is_exact_witness :
  check_sample_names ["S1"; "S,2"] Demo.batch
  = mkRan [Printed comma_message] Demo.batch (SysExit 1).
Proof.
  apply (proj2 (@comma_check_is_exact Demo.world ["S1"; "S,2"] Demo.batch)).
  exists "S,2", "S", "2". split; [right; left; reflexivity | reflexivity].
Defined.
